(** * fxa-auth-server: credential resolution, TOTP routes, OAuth assertions

    A shallow embedding of

    - [lib/routes/totp.js]              (the four TOTP route handlers),
    - [lib/server.js]                   ([nonceCheck], [makeCredentialFn]),
    - [lib/routes/utils/oauth-mint.js]  ([generateOAuthAssertion]),

    together with the properties of these functions.

    Promises are modelled as computations over the Token Store that
    settle ([Resolved] / [Rejected]) and record, in order, every call
    they make to a collaborator (store, customs, log, metrics).  The
    collaborators themselves (customs, otplib, qrcode, the store's
    failure behaviour, the clock) are gathered in the record [Env]. *)

From Stdlib Require Import ZArith QArith List Lia Ascii String.
From stdpp Require Import base gmap strings list fin_maps.

Local Open Scope string_scope.
Local Open Scope Z_scope.
Local Open Scope list_scope.
Local Open Scope stdpp_scope.

(* ===================================================================== *)
(** * Data model                                                          *)
(* ===================================================================== *)

(** [lib/error.js] is not part of the modelled files; the failures the
    modelled code builds or inspects are kept as tagged variants.
    [err.errno === errors.ERRNO.TOTP_TOKEN_NOT_FOUND] becomes a match on
    [totpTokenNotFound]. *)
Inductive AppError : Type :=
| unverifiedSession
| invalidToken (message : string)
| totpTokenNotFound
| otherError (errno : Z) (message : string).

Definition is_TOTP_TOKEN_NOT_FOUND (err : AppError) : bool :=
  match err with
  | totpTokenNotFound => true
  | _ => false
  end.

(** A bearer token object as the routes read it.  [tokenVerificationId]
    is either absent ([null]/[undefined]) or a hex identifier, so the
    JavaScript test [if (sessionToken.tokenVerificationId)] is the test
    for [Some]. *)
Module Token.
Record t : Type := mk {
  id : string;
  uid : string;
  tokenTypeID : string;
  email : string;
  createdAt : Z;
  expiresAt : option Z;
  tokenVerificationId : option string;
  verifierSetAt : Z;
  lastAuthAt : Z
}.

(** Modelled from the spec: the method [token.expired(now)] lives in
    lib/tokens, which is not among the modelled files.  The spec says
    the resolver compares [now] against the token's expiry, that the
    expiry is nullable (some tokens never expire), and speaks of a
    token "whose expiry time is before the current time". *)
Definition expired (tok : t) (now : Z) : bool :=
  match expiresAt tok with
  | Some e => e <? now
  | None => false
  end.

Definition with_tokenVerificationId (v : option string) (tok : t) : t :=
  mk (id tok) (uid tok) (tokenTypeID tok) (email tok) (createdAt tok)
     (expiresAt tok) v (verifierSetAt tok) (lastAuthAt tok).
End Token.

Module TotpToken.
Record t : Type := mk {
  uid : string;
  sharedSecret : string;
  verified : bool;
  enabled : bool;
  epoch : Z
}.

Definition with_flags (v e : bool) (tok : t) : t :=
  mk (uid tok) (sharedSecret tok) v e (epoch tok).
End TotpToken.

(** The persisted state owned by the Token Store: the TOTP table keyed
    by uid and the bearer tokens keyed by token id. *)
Record Store : Type := mkStore {
  totp : gmap string TotpToken.t;
  tokens : gmap string Token.t
}.

(** ** Calls to collaborators, in the order they are issued *)

Inductive DbCall : Type :=
| call_createTotpToken (uid secret : string) (epoch : Z)
| call_deleteTotpToken (uid : string)
| call_totpToken (uid : string)
| call_updateTotpToken (uid : string) (verified enabled : bool)
| call_verifyTokensWithMethod (tokenId method : string)
| call_pruneSessionTokens (uid : string) (tokenIds : list string)
| call_getToken (kind tokenId : string).

Inductive Event : Type :=
| log_begin (op : string)
| log_trace_getToken (tokenId : string)
| log_trace_nonceFunc (skew : Q)
| log_info (op uid : string)
| emitMetricsEvent (name uid : string)
| customs_check_called (action : string)
| db (c : DbCall).

Definition is_store_access (e : Event) : bool :=
  match e with db _ => true | _ => false end.

Definition is_store_mutation (e : Event) : bool :=
  match e with
  | db (call_createTotpToken _ _ _)
  | db (call_deleteTotpToken _)
  | db (call_updateTotpToken _ _ _)
  | db (call_verifyTokensWithMethod _ _)
  | db (call_pruneSessionTokens _ _) => true
  | _ => false
  end.

Definition is_telemetry (e : Event) : bool :=
  match e with log_info _ _ | emitMetricsEvent _ _ => true | _ => false end.

Definition is_customs_check (e : Event) : bool :=
  match e with customs_check_called _ => true | _ => false end.

(* ===================================================================== *)
(** * Promises                                                            *)
(* ===================================================================== *)

Inductive Settled (A : Type) : Type :=
| Resolved (a : A)
| Rejected (err : AppError).
Arguments Resolved {A} a.
Arguments Rejected {A} err.

(** A promise, run to settlement from a store: how it settled, the store
    it left, the collaborator calls it issued. *)
Definition Promise (A : Type) : Type :=
  Store -> Settled A * Store * list Event.

Definition resolve {A} (a : A) : Promise A := fun s => (Resolved a, s, []).
Definition reject {A} (err : AppError) : Promise A := fun s => (Rejected err, s, []).
Definition emit (e : Event) : Promise unit := fun s => (Resolved tt, s, [e]).

(** [p.then(onFulfilled, onRejected)] *)
Definition then2 {A B} (p : Promise A)
    (onFulfilled : A -> Promise B) (onRejected : AppError -> Promise B)
  : Promise B :=
  fun s =>
    match p s with
    | (Resolved a, s1, ev1) =>
        let '(r, s2, ev2) := onFulfilled a s1 in (r, s2, ev1 ++ ev2)
    | (Rejected err, s1, ev1) =>
        let '(r, s2, ev2) := onRejected err s1 in (r, s2, ev1 ++ ev2)
    end.

(** [p.then(onFulfilled)]: a rejection skips the callback. *)
Definition then_ {A B} (p : Promise A) (onFulfilled : A -> Promise B)
  : Promise B :=
  then2 p onFulfilled reject.

(** [p.catch(onRejected)] *)
Definition catch {A} (p : Promise A) (onRejected : AppError -> Promise A)
  : Promise A :=
  then2 p resolve onRejected.

Declare Scope promise_scope.
Delimit Scope promise_scope with promise.
Notation "p >>= f" := (then_ p f)
  (at level 50, left associativity) : promise_scope.
Local Open Scope promise_scope.

Definition settled {A} (o : Settled A * Store * list Event) : Settled A := o.1.1.
Definition store_after {A} (o : Settled A * Store * list Event) : Store := o.1.2.
Definition events {A} (o : Settled A * Store * list Event) : list Event := o.2.

(* ===================================================================== *)
(** * Collaborators                                                       *)
(* ===================================================================== *)

Record Request : Type := mkRequest {
  credentials : Token.t;      (* request.auth.credentials *)
  payload_code : string       (* request.payload.code *)
}.

Record Env : Type := mkEnv {
  (** [Date.now()], in milliseconds *)
  Date_now : Z;
  (** [customs.check(request, action)]: [None] lets the request pass *)
  customs_check : Request -> string -> option AppError;
  (** [otplib.authenticator] *)
  authenticator_check : string -> string -> bool;
  authenticator_generateSecret : string;
  authenticator_keyuri : string -> string -> string -> string;
  (** [qrcode.toDataURL(otpauth, qrCodeOptions)] *)
  qrcode_toDataURL : string -> Settled string;
  config_serviceName : string;
  (** [HEX_STRING.test(id)], the pattern of lib/routes/validators *)
  HEX_STRING_test : string -> bool;
  (** an upstream failure of the Token Store on a given call *)
  db_outage : DbCall -> option AppError;
  (** whether deleting a TOTP row that is not there signals not-found *)
  db_delete_signals_not_found : bool;
  (** what a token accessor signals for an id it does not hold *)
  db_token_not_found : AppError;
  (** [request.emitMetricsEvent(name, data)]: [None] when the promise it
      returns resolves *)
  metrics_emit : Request -> string -> option AppError;
  (** what creating a TOTP row signals for a uid that already has one:
      [None] when the store replaces the row *)
  db_create_refuses_existing : option AppError
}.

(* ===================================================================== *)
(** * The Token Store                                                     *)
(* ===================================================================== *)

Module Db.
Section WithEnv.
Context (env : Env).

(** Every call is recorded, then either fails upstream or runs. *)
Definition call {A} (c : DbCall) (run : Store -> Settled A * Store)
  : Promise A :=
  fun s =>
    match db_outage env c with
    | Some err => (Rejected err, s, [db c])
    | None => let '(r, s') := run s in (r, s', [db c])
    end.

(** Modelled from the spec: lib/db.js is not among the modelled files.
    The TOTP table holds at most one row per uid; a lookup of a uid
    without a row signals the not-found failure that the exists route
    tests for. *)
Definition totpToken (uid : string) : Promise TotpToken.t :=
  call (call_totpToken uid) (fun s =>
    match totp s !! uid with
    | Some tok => (Resolved tok, s)
    | None => (Rejected totpTokenNotFound, s)
    end).

(** Modelled from the spec: lib/db.js is not among the modelled files.
    A new row is persisted with [verified = false], [enabled = false].
    The spec keeps at most one row per uid and does not say what the
    store does for a uid that already has one: whether it refuses (and
    with what failure) or replaces the row is a parameter. *)
Definition createTotpToken (uid secret : string) (epoch : Z) : Promise unit :=
  call (call_createTotpToken uid secret epoch) (fun s =>
    match totp s !! uid, db_create_refuses_existing env with
    | Some _, Some err => (Rejected err, s)
    | _, _ =>
        (Resolved tt,
         mkStore (<[uid := TotpToken.mk uid secret false false epoch]> (totp s))
                 (tokens s))
    end).

(** Modelled from the spec: lib/db.js is not among the modelled files.
    Deleting removes the row; for a uid without a row "the Token Store
    may signal not-found" -- whether it does is a parameter. *)
Definition deleteTotpToken (uid : string) : Promise unit :=
  call (call_deleteTotpToken uid) (fun s =>
    match totp s !! uid with
    | None =>
        if db_delete_signals_not_found env
        then (Rejected totpTokenNotFound, s)
        else (Resolved tt, s)
    | Some _ => (Resolved tt, mkStore (delete uid (totp s)) (tokens s))
    end).

(** Modelled from the spec: lib/db.js is not among the modelled files.
    A single-row update of the two flags. *)
Definition updateTotpToken (uid : string) (verified enabled : bool)
  : Promise unit :=
  call (call_updateTotpToken uid verified enabled) (fun s =>
    match totp s !! uid with
    | Some tok =>
        (Resolved tt,
         mkStore (<[uid := TotpToken.with_flags verified enabled tok]> (totp s))
                 (tokens s))
    | None => (Rejected totpTokenNotFound, s)
    end).

(** Modelled from the spec: lib/db.js is not among the modelled files.
    Marks the session as verified: its [tokenVerificationId] is
    cleared. *)
Definition verifyTokensWithMethod (tokenId method : string) : Promise unit :=
  call (call_verifyTokensWithMethod tokenId method) (fun s =>
    (Resolved tt,
     mkStore (totp s)
             (alter (Token.with_tokenVerificationId None) tokenId (tokens s)))).

(** Modelled from the spec: lib/db.js is not among the modelled files.
    Pruning removes the given session tokens, after which they are no
    longer resolvable. *)
Definition pruneSessionTokens (uid : string) (toks : list Token.t)
  : Promise unit :=
  call (call_pruneSessionTokens uid (map Token.id toks)) (fun s =>
    (Resolved tt,
     mkStore (totp s)
             (foldr (fun tok m => delete (Token.id tok) m) (tokens s) toks))).

(** Modelled from the spec: lib/db.js is not among the modelled files.
    The accessor bound to one token kind ([db.sessionToken],
    [db.keyFetchToken], ...): fetch the token of that kind by id. *)
Definition getToken (kind : string) (tokenId : string) : Promise Token.t :=
  call (call_getToken kind tokenId) (fun s =>
    match tokens s !! tokenId with
    | Some tok =>
        if bool_decide (Token.tokenTypeID tok = kind)
        then (Resolved tok, s)
        else (Rejected (db_token_not_found env), s)
    | None => (Rejected (db_token_not_found env), s)
    end).
End WithEnv.
End Db.

(* ===================================================================== *)
(** * lib/routes/totp.js                                                  *)
(* ===================================================================== *)

(** What a handler passes to [reply] on success, one shape per route. *)
Inductive Body : Type :=
| body_create (qrCodeUrl secret : string)
| body_empty
| body_exists (exists_ : bool)
| body_success (success : bool).

(** How a handler invocation ends: it calls [reply] with a body or with
    an error, or it throws before any promise chain exists. *)
Inductive Completion : Type :=
| Replied (r : Settled Body)
| Threw (err : AppError).

Definition Handler : Type := Store -> Completion * Store * list Event.

(** [p.then(x => reply(body x), reply)] *)
Definition reply_with {A} (p : Promise A) (body : A -> Body) : Handler :=
  fun s =>
    let '(r, s', ev) := p s in
    (Replied match r with
             | Resolved a => Resolved (body a)
             | Rejected err => Rejected err
             end, s', ev).

Definition completion (o : Completion * Store * list Event) : Completion := o.1.1.
Definition store_of (o : Completion * Store * list Event) : Store := o.1.2.
Definition events_of (o : Completion * Store * list Event) : list Event := o.2.

Module Customs.
(** [customs.check(request, action)]: the call is recorded; the promise
    rejects when customs blocks the request. *)
Definition check (env : Env) (request : Request) (action : string)
  : Promise unit :=
  fun s =>
    match customs_check env request action with
    | Some err => (Rejected err, s, [customs_check_called action])
    | None => (Resolved tt, s, [customs_check_called action])
    end.
End Customs.

Module Metrics.
(** [request.emitMetricsEvent(name, {uid})], as a promise: the call is
    recorded; the promise rejects when the emission fails. *)
Definition emitMetricsEvent (env : Env) (request : Request)
    (name uid : string) : Promise unit :=
  fun s =>
    match metrics_emit env request name with
    | Some err => (Rejected err, s, [emitMetricsEvent name uid])
    | None => (Resolved tt, s, [emitMetricsEvent name uid])
    end.
End Metrics.

(** POST /totp/create *)
Module TotpCreate.
Section Handler.
Context (env : Env) (request : Request).

Definition sessionToken : Token.t := credentials request.
Definition uid : string := Token.uid sessionToken.
Definition secret : string := authenticator_generateSecret env.

Definition createTotpToken (_ : unit) : Promise unit :=
  match Token.tokenVerificationId sessionToken with
  | Some _ => reject unverifiedSession
  | None => Db.createTotpToken env uid secret 0
  end.

Definition createResponse (_ : unit) : Promise (string * string) :=
  let otpauth :=
    authenticator_keyuri env (Token.email sessionToken)
                         (config_serviceName env) secret in
  fun s =>
    match qrcode_toDataURL env otpauth with
    | Resolved qrCodeUrl => (Resolved (qrCodeUrl, secret), s, [])
    | Rejected err => (Rejected err, s, [])
    end.

(** The promise of [request.emitMetricsEvent] is returned into the
    chain. *)
Definition emitMetrics (_ : unit) : Promise unit :=
  emit (log_info "totpToken.created" uid) >>= fun _ =>
  Metrics.emitMetricsEvent env request "totpToken.created" uid.

Definition handler : Handler :=
  reply_with
    (emit (log_begin "totp.create") >>= fun _ =>
     Customs.check env request "totpCreate"
       >>= createTotpToken
       >>= emitMetrics
       >>= createResponse)
    (fun response => body_create response.1 response.2).
End Handler.
End TotpCreate.

(** POST /totp/destroy *)
Module TotpDestroy.
Section Handler.
Context (env : Env) (request : Request).

Definition sessionToken : Token.t := credentials request.
Definition uid : string := Token.uid sessionToken.

Definition deleteTotpToken (_ : unit) : Promise unit :=
  match Token.tokenVerificationId sessionToken with
  | Some _ => reject unverifiedSession
  | None => Db.deleteTotpToken env uid
  end.

Definition handler : Handler :=
  reply_with
    (emit (log_begin "totp.destroy") >>= fun _ =>
     Customs.check env request "totpDestroy"
       >>= deleteTotpToken)
    (fun _ => body_empty).
End Handler.
End TotpDestroy.

(** GET /totp/exists *)
Module TotpExists.
Section Handler.
Context (env : Env) (request : Request).

Definition sessionToken : Token.t := credentials request.

(** [getTotpToken] is called directly by the handler, outside any
    promise callback: its [throw] leaves the handler as an exception
    ([inl]); otherwise it returns a promise for the value of [exists]. *)
Definition getTotpToken : AppError + Promise bool :=
  match Token.tokenVerificationId sessionToken with
  | Some _ => inl unverifiedSession
  | None =>
      inr (then2 (Db.totpToken env (Token.uid sessionToken))
             (fun token =>
                if negb (TotpToken.verified token)
                then Db.deleteTotpToken env (Token.uid sessionToken)
                       >>= fun _ => resolve false
                else resolve true)
             (fun err =>
                if is_TOTP_TOKEN_NOT_FOUND err
                then resolve false
                else reject err))
  end.

Definition handler : Handler :=
  fun s =>
    match getTotpToken with
    | inl err => (Threw err, s, [log_begin "totp.exists"])
    | inr p =>
        reply_with (emit (log_begin "totp.exists") >>= fun _ => p)
                   body_exists s
    end.
End Handler.
End TotpExists.

(** POST /session/verify/totp *)
Module SessionVerifyTotp.
Section Handler.
Context (env : Env) (request : Request).

Definition code : string := payload_code request.
Definition sessionToken : Token.t := credentials request.
Definition uid : string := Token.uid sessionToken.

(** The closure variables [sharedSecret], [tokenVerified] and
    [isValidCode] are passed along the chain. *)
Definition getTotpToken (_ : unit) : Promise (string * bool) :=
  Db.totpToken env (Token.uid sessionToken) >>= fun token =>
  resolve (TotpToken.sharedSecret token, TotpToken.verified token).

Definition verifyTotpCode (v : string * bool) : Promise (bool * bool) :=
  let '(sharedSecret, tokenVerified) := v in
  resolve (authenticator_check env code sharedSecret, tokenVerified).

Definition verifyTotpToken (v : bool * bool) : Promise bool :=
  let '(isValidCode, tokenVerified) := v in
  if isValidCode && negb tokenVerified
  then Db.updateTotpToken env (Token.uid sessionToken) true true
         >>= fun _ => resolve isValidCode
  else resolve isValidCode.

Definition verifySession (isValidCode : bool) : Promise bool :=
  match isValidCode, Token.tokenVerificationId sessionToken with
  | true, Some _ =>
      Db.verifyTokensWithMethod env (Token.id sessionToken) "totp-2fa"
        >>= fun _ => resolve isValidCode
  | _, _ => resolve isValidCode
  end.

(** Here the promise of [request.emitMetricsEvent] is not returned: the
    chain does not wait for it and does not see its outcome. *)
Definition emitMetrics (isValidCode : bool) : Promise bool :=
  if isValidCode
  then emit (log_info "totp.verified" uid) >>= fun _ =>
       emit (emitMetricsEvent "totpToken.verified" uid) >>= fun _ =>
       resolve isValidCode
  else emit (log_info "totp.unverified" uid) >>= fun _ =>
       emit (emitMetricsEvent "totpToken.unverified" uid) >>= fun _ =>
       resolve isValidCode.

Definition handler : Handler :=
  reply_with
    (emit (log_begin "session.verify.totp") >>= fun _ =>
     Customs.check env request "sessionVerifyTotp"
       >>= getTotpToken
       >>= verifyTotpCode
       >>= verifyTotpToken
       >>= verifySession
       >>= emitMetrics)
    body_success.
End Handler.
End SessionVerifyTotp.

(** The four TOTP operations of the spec and the route each one names. *)
Inductive Operation : Type := Create | Destroy | Exists | VerifyCode.

Definition run (env : Env) (op : Operation) (request : Request) : Handler :=
  match op with
  | Create => TotpCreate.handler env request
  | Destroy => TotpDestroy.handler env request
  | Exists => TotpExists.handler env request
  | VerifyCode => SessionVerifyTotp.handler env request
  end.

(* ===================================================================== *)
(** * lib/server.js *)
(* ===================================================================== *)

Module Server.

(** How [nonceFunc] calls its continuation: [cb()] or [cb(err)]. *)
Inductive NonceVerdict : Type :=
| nonce_accepted
| nonce_rejected (err : AppError).

(** [nonceCheck(key, nonce, ts, cb)].  [ts] is the number [+ts], in
    seconds; the skew is kept as an exact rational. *)
Definition nonceCheck (env : Env) (key nonce : string) (ts : Q)
  : Store -> NonceVerdict * Store * list Event :=
  fun s =>
    let skew := (inject_Z (Date_now env) / inject_Z 1000 - ts)%Q in
    (nonce_accepted, s, [log_trace_nonceFunc skew]).

(** A run of signed requests, checked one after the other. *)
Fixpoint nonceChecks (env : Env) (presented : list (string * string * Q))
    (s : Store) : list NonceVerdict * Store :=
  match presented with
  | [] => ([], s)
  | (key, nonce, ts) :: rest =>
      let '(v, s1, _) := nonceCheck env key nonce ts s in
      let '(vs, s2) := nonceChecks env rest s1 in
      (v :: vs, s2)
  end.

(** How the credentials function calls its continuation:
    [cb(null, null)], [cb(err)] or [cb(null, token)]. *)
Inductive Callback : Type :=
| cb_not_found
| cb_error (err : AppError)
| cb_credentials (token : Token.t).

Section MakeCredentialFn.
Context (env : Env) (dbGetFn : string -> Promise Token.t).

Definition on_token (token : Token.t) : Promise Callback :=
  if Token.expired token (Date_now env)
  then
    let err := invalidToken "The authentication token has expired" in
    if bool_decide (Token.tokenTypeID token = "sessionToken")
    then catch (Db.pruneSessionTokens env (Token.uid token) [token])
               (fun _ => resolve tt)
           >>= fun _ => resolve (cb_error err)
    else resolve (cb_error err)
  else resolve (cb_credentials token).

(** The function returned by [makeCredentialFn(dbGetFn)], applied to
    [id]; the promise resolves to the call made to [cb]. *)
Definition makeCredentialFn (id : string) : Promise Callback :=
  emit (log_trace_getToken id) >>= fun _ =>
  if negb (HEX_STRING_test env id)
  then resolve cb_not_found
  else then2 (dbGetFn id) on_token (fun err => resolve (cb_error err)).
End MakeCredentialFn.

(** A strategy binds the accessor of one token kind:
    [makeCredentialFn(db.sessionToken.bind(db))] and the like. *)
Definition getCredentialsFunc (env : Env) (kind : string) (id : string)
  : Promise Callback :=
  makeCredentialFn env (Db.getToken env kind) id.

End Server.

(* ===================================================================== *)
(** * lib/server.js: request helpers *)
(* ===================================================================== *)

(** Header values reach the server one character per byte, so a header
    is kept as its list of characters; [length] is the JavaScript
    [.length]. *)
Module JsString.

(** The characters [String.prototype.trim] and the regular expression
    class [\s] treat as white space, among the characters a header can
    hold: TAB, LF, VT, FF, CR, space and no-break space. *)
Definition is_white_space (c : Ascii.ascii) : bool :=
  let n := N_of_ascii c in
  ((9 <=? n) && (n <=? 13) || (n =? 32) || (n =? 160))%N.

Definition comma : Ascii.ascii := ","%char.

Definition is_comma (c : Ascii.ascii) : bool := (N_of_ascii c =? 44)%N.

Fixpoint trimStart (s : list Ascii.ascii) : list Ascii.ascii :=
  match s with
  | c :: s' => if is_white_space c then trimStart s' else s
  | [] => []
  end.

Fixpoint trimEnd (s : list Ascii.ascii) : list Ascii.ascii :=
  match s with
  | c :: s' =>
      match trimEnd s' with
      | [] => if is_white_space c then [] else [c]
      | r => c :: r
      end
  | [] => []
  end.

(** [s.trim()] *)
Definition trim (s : list Ascii.ascii) : list Ascii.ascii :=
  trimEnd (trimStart s).

(** [s.split(',')]: the first part and the parts after it (the array is
    never empty). *)
Fixpoint split_comma (s : list Ascii.ascii)
  : list Ascii.ascii * list (list Ascii.ascii) :=
  match s with
  | [] => ([], [])
  | c :: s' =>
      let '(p, ps) := split_comma s' in
      if is_comma c then ([], p :: ps) else (c :: p, ps)
  end.

(** [s.split(/\s*,\s*/)], read left to right.  [cur] is the part being
    read, [pending] a run of white space after it that belongs to the
    part unless a comma follows; [after_sep] holds right after a
    separator, whose trailing white space is being consumed. *)
Fixpoint split_sep_from (after_sep : bool) (cur pending : list Ascii.ascii)
    (s : list Ascii.ascii) : list (list Ascii.ascii) :=
  match s with
  | [] => [cur ++ pending]
  | c :: s' =>
      if is_comma c then cur :: split_sep_from true [] [] s'
      else if is_white_space c
      then if after_sep
           then split_sep_from true [] [] s'
           else split_sep_from false cur (pending ++ [c]) s'
      else split_sep_from false (cur ++ pending ++ [c]) [] s'
  end.

Definition split_sep (s : list Ascii.ascii) : list (list Ascii.ascii) :=
  split_sep_from false [] [] s.

(** [str + ',' + part + ',' + ...] *)
Definition append_parts (str : list Ascii.ascii)
    (parts : list (list Ascii.ascii)) : list Ascii.ascii :=
  str ++ concat (map (cons comma) parts).
End JsString.

Module Locale.

(** The value of [request.headers['accept-language']] and the value
    [trimLocale] returns. *)
Inductive Header : Type :=
| undefined
| null
| text (s : list Ascii.ascii).

(** The [for] loop of [trimLocale], from [parts[i]] on. *)
Fixpoint extend (str : list Ascii.ascii) (parts : list (list Ascii.ascii))
  : list Ascii.ascii :=
  match parts with
  | p :: parts' =>
      if (length str + length p <? 255)%nat
      then extend (str ++ JsString.comma :: p) parts'
      else str
  | [] => str
  end.

Definition trimLocale (header : Header) : Header :=
  match header with
  | undefined => undefined
  | null => null
  | text [] => text []
  | text s =>
      if (length s <? 256)%nat then text (JsString.trim s)
      else
        let '(str, parts) := JsString.split_comma s in
        if (255 <=? length str)%nat then null
        else text (JsString.trim (extend str parts))
  end.
End Locale.

(** [defineLazyGetter(object, key, getter)]: the property reads through
    the closure variable [value] ([None] while it is [undefined]).  The
    getter may have effects of its own, on a state [G]. *)
Module LazyGetter.
Section Getter.
Context {V G : Type} (truthy : V -> bool) (getter : G -> V * G).

(** One read of the property: the value read, the closure variable and
    the getter's state after the read. *)
Definition get (value : option V) (g : G) : V * option V * G :=
  match value with
  | Some v =>
      if truthy v then (v, value, g)
      else let '(v', g') := getter g in (v', Some v', g')
  | None => let '(v', g') := getter g in (v', Some v', g')
  end.

(** [n] reads in a row. *)
Fixpoint reads (n : nat) (value : option V) (g : G)
  : list V * option V * G :=
  match n with
  | O => ([], value, g)
  | S n' =>
      let '(v, value1, g1) := get value g in
      let '(vs, value2, g2) := reads n' value1 g1 in
      (v :: vs, value2, g2)
  end.
End Getter.
End LazyGetter.

(** The lazy getters [remoteAddressChain] and [clientAddress] of the
    [onPreAuth] extension. *)
Module RequestApp.

(** [xff] is [request.headers['x-forwarded-for']] ([None] when the
    header is absent), [remoteAddress] is [request.info.remoteAddress]. *)
Definition remoteAddressChain (xff : option (list Ascii.ascii))
    (remoteAddress : list Ascii.ascii) : list (list Ascii.ascii) :=
  let xff := JsString.split_sep (default [] xff) in
  filter (fun address => address <> [])
         (map JsString.trim (xff ++ [remoteAddress])).

(** [clientAddressDepth] is [config.clientAddressDepth] ([None] when it
    is not set); the result is [None] when the array has no element at
    the index. *)
Definition clientAddress (clientAddressDepth : option Z)
    (remoteAddressChain : list (list Ascii.ascii))
  : option (list Ascii.ascii) :=
  let depth :=
    match clientAddressDepth with
    | Some d => if d =? 0 then 1 else d
    | None => 1
    end in
  let clientAddressIndex := Z.of_nat (length remoteAddressChain) - depth in
  let clientAddressIndex :=
    if clientAddressIndex <? 0 then 0 else clientAddressIndex in
  remoteAddressChain !! Z.to_nat clientAddressIndex.
End RequestApp.

(* ===================================================================== *)
(** * lib/routes/utils/oauth-mint.js *)
(* ===================================================================== *)

Module OAuthMint.

Definition ASSERTION_LIFETIME : Z := 1000 * 3600 * 24 * 365 * 25.
Definition CERT_LIFETIME : Z := 1000 * 3600 * 5.
Definition CLIENT_ID : string := "5882386c6d801776".

(** The object passed to [signer.sign]. *)
Record CertRequest : Type := mkCertRequest {
  publicKey : string;
  email : string;
  domain : string;
  duration : Z;
  generation : Z;
  lastAuthAt : Z;
  verifiedEmail : string
}.

(** The object passed to [secretKey.sign]. *)
Record AssertionClaims : Type := mkAssertionClaims {
  exp : Z;
  aud : string
}.

(** The body posted to the OAuth authorization endpoint. *)
Record AuthorizationRequest : Type := mkAuthorizationRequest {
  assertion : string;
  client_id : string;
  response_type : string;
  scope : string
}.

(** Configuration and collaborators of the module: the signer, the
    locally held key, the pool and the clock. *)
Record Env : Type := mkEnv {
  config_domain : string;
  config_oauth_url : string;
  publicKey_toJSON : string;
  (** [signer.sign(request)], resolving to [res.cert] *)
  signer_sign : CertRequest -> Settled string;
  (** [secretKey.sign(claims)] *)
  secretKey_sign : AssertionClaims -> Settled string;
  (** [pool.post(path, body)] *)
  pool_post : string -> AuthorizationRequest -> Settled string;
  (** [Date.now()] at the time the signer has answered *)
  Date_now : Z
}.

Section Mint.
Context (env : Env).

(** Token uids are kept in their hex form, [uid.toString('hex')]. *)
Definition certRequest (sessionToken : Token.t) : CertRequest :=
  {| publicKey := publicKey_toJSON env;
     email := String.append (Token.uid sessionToken)
                (String.append "@" (config_domain env));
     domain := config_domain env;
     duration := CERT_LIFETIME;
     generation := Token.verifierSetAt sessionToken;
     lastAuthAt := Token.lastAuthAt sessionToken;
     verifiedEmail := Token.email sessionToken |}.

Definition assertionClaims : AssertionClaims :=
  {| exp := Date_now env + ASSERTION_LIFETIME;
     aud := String.append (config_oauth_url env) "/v1" |}.

Definition generateOAuthAssertion (sessionToken : Token.t) : Settled string :=
  match signer_sign env (certRequest sessionToken) with
  | Resolved cert =>
      match secretKey_sign env assertionClaims with
      | Resolved assertion =>
          Resolved (String.append cert (String.append "~" assertion))
      | Rejected err => Rejected err
      end
  | Rejected err => Rejected err
  end.

Definition getOAuthToken (sessionToken : Token.t) (scope : string)
  : Settled string :=
  match generateOAuthAssertion sessionToken with
  | Resolved assertion =>
      pool_post env "/v1/authorization"
        {| assertion := assertion;
           client_id := CLIENT_ID;
           response_type := "token";
           scope := scope |}
  | Rejected err => Rejected err
  end.
End Mint.


End OAuthMint.

(* ===================================================================== *)
(** * Vocabulary of the properties *)
(* ===================================================================== *)

(** The Token Store answers every call of the request. *)
Definition healthy (env : Env) : Prop := forall c, db_outage env c = None.

Definition is_updateTotpToken (e : Event) : bool :=
  match e with db (call_updateTotpToken _ _ _) => true | _ => false end.

Definition is_verifyTokensWithMethod (e : Event) : bool :=
  match e with db (call_verifyTokensWithMethod _ _) => true | _ => false end.

(** [n] submissions of the same request, one after the other: the
    replies in order and the store left by the last one. *)
Fixpoint attempts (env : Env) (request : Request) (n : nat) (s : Store)
  : list Completion * Store :=
  match n with
  | O => ([], s)
  | S n' =>
      let o := SessionVerifyTotp.handler env request s in
      let '(cs, s') := attempts env request n' (store_of o) in
      (completion o :: cs, s')
  end.

(** The action each route passes to [customs.check]; the exists route
    does not call customs. *)
Definition customs_action (op : Operation) : option string :=
  match op with
  | Create => Some "totpCreate"
  | Destroy => Some "totpDestroy"
  | Exists => None
  | VerifyCode => Some "sessionVerifyTotp"
  end.

Definition customs_lets_pass (env : Env) (op : Operation) (request : Request)
  : Prop :=
  match customs_action op with
  | Some action => customs_check env request action = None
  | None => True
  end.

(** The handler passes the failure [err] to [reply]. *)
Definition fails_with (o : Completion * Store * list Event) (err : AppError)
  : Prop :=
  completion o = Replied (Rejected err).

(** The handler replies the "unverified session" failure and has
    neither called a mutating store operation nor changed the store. *)
Definition rejected_unverified_before_mutation
    (env : Env) (op : Operation) (request : Request) (s : Store) : Prop :=
  let o := run env op request s in
  fails_with o unverifiedSession /\
  forallb (fun e => negb (is_store_mutation e)) (events_of o) = true /\
  store_of o = s.

(** Every Token Store access in [l] has a customs check before it. *)
Definition customs_before_store (l : list Event) : Prop :=
  forall pre e post,
    l = pre ++ e :: post ->
    is_store_access e = true ->
    exists c, In c pre /\ is_customs_check c = true.

Fixpoint customs_firstb (l : list Event) : bool :=
  match l with
  | [] => true
  | e :: l' =>
      if is_customs_check e then true
      else negb (is_store_access e) && customs_firstb l'
  end.

(** What C5 asks of one invocation: customs is asked before any store
    access, and a customs rejection [err] is replied with no store
    access, no telemetry and no state change. *)
Definition customs_checked_first
    (env : Env) (op : Operation) (request : Request) (s : Store) : Prop :=
  let o := run env op request s in
  customs_before_store (events_of o) /\
  forall action err,
    customs_check env request action = Some err ->
    completion o = Replied (Rejected err) /\
    forallb (fun e => negb (is_store_access e)) (events_of o) = true /\
    forallb (fun e => negb (is_telemetry e)) (events_of o) = true /\
    store_of o = s.

Definition expired_failure : AppError :=
  invalidToken "The authentication token has expired".


(** What C8 asks of one strategy: a malformed id, an id the store does
    not hold and the id of an expired token get the same answer. *)
Definition same_answer (env : Env) (kind : string) (s : Store)
    (malformed absent expired : string) : Prop :=
  settled (Server.getCredentialsFunc env kind malformed s)
  = settled (Server.getCredentialsFunc env kind absent s) /\
  settled (Server.getCredentialsFunc env kind absent s)
  = settled (Server.getCredentialsFunc env kind expired s).

(** The values of [n] calls of a getter in a row and its state after
    them. *)
Fixpoint getter_runs {V G : Type} (getter : G -> V * G) (n : nat) (g : G)
  : list V * G :=
  match n with
  | O => ([], g)
  | S n' =>
      let '(v, g1) := getter g in
      let '(vs, g2) := getter_runs getter n' g1 in
      (v :: vs, g2)
  end.

(** The TotpToken invariant of the data model: an enabled factor has
    been verified. *)
Definition flags_consistent (s : Store) : Prop :=
  forall uid tok,
    totp s !! uid = Some tok ->
    TotpToken.enabled tok = true -> TotpToken.verified tok = true.

Definition telemetry_of (l : list Event) : list Event :=
  filter (fun e => is_telemetry e = true) l.

(** The user whose TOTP row a store call names. *)
Definition totp_row_of (e : Event) : option string :=
  match e with
  | db (call_createTotpToken uid _ _)
  | db (call_deleteTotpToken uid)
  | db (call_totpToken uid)
  | db (call_updateTotpToken uid _ _) => Some uid
  | _ => None
  end.

(* ===================================================================== *)
(** * Sample collaborators, requests and stores *)
(* ===================================================================== *)

Module Sample.
Definition is_hex_digit (c : Ascii.ascii) : bool :=
  let n := N_of_ascii c in
  ((48 <=? n) && (n <=? 57) || (97 <=? n) && (n <=? 102) || (65 <=? n) && (n <=? 70))%N.

Definition hex4 (id : string) : bool :=
  (String.length id =? 4)%nat && forallb is_hex_digit (list_ascii_of_string id).

Definition env : Env := {|
  Date_now := 1500000000000;
  customs_check := fun _ _ => None;
  authenticator_check := fun code _ => String.eqb code "123456";
  authenticator_generateSecret := "3132333435363738393031323334353637383930";
  authenticator_keyuri := fun email service secret =>
    String.append "otpauth://totp/"
      (String.append service (String.append ":" (String.append email
        (String.append "?secret=" secret))));
  qrcode_toDataURL := fun otpauth => Resolved (String.append "data:image/png;base64," otpauth);
  config_serviceName := "Firefox";
  HEX_STRING_test := hex4;
  db_outage := fun _ => None;
  db_delete_signals_not_found := false;
  db_token_not_found := invalidToken "The authentication token could not be found";
  metrics_emit := fun _ _ => None;
  db_create_refuses_existing := None
|}.

Definition session (tokenVerificationId : option string) : Token.t :=
  Token.mk "a1b2" "u1" "sessionToken" "user@example.com" 1400000000000 None
           tokenVerificationId 1300000000000 1400000000000.

Definition request (tokenVerificationId : option string) (code : string)
  : Request :=
  mkRequest (session tokenVerificationId) code.

Definition empty : Store := mkStore ∅ ∅.

Definition with_totp (verified enabled : bool) : Store :=
  mkStore {[ "u1" := TotpToken.mk "u1" "3132" verified enabled 0 ]}
          {[ "a1b2" := session None ]}.
End Sample.

Module SampleTokens.
Definition expired_session : Token.t :=
  Token.mk "a1b2" "u1" "sessionToken" "user@example.com" 1400000000000
           (Some 1499999999999) None 1300000000000 1400000000000.

Definition expired_keyFetch : Token.t :=
  Token.mk "c3d4" "u1" "keyFetchToken" "user@example.com" 1400000000000
           (Some 1499999999999) None 1300000000000 1400000000000.

Definition store : Store :=
  mkStore ∅ (<["a1b2" := expired_session]> {[ "c3d4" := expired_keyFetch ]}).
End SampleTokens.

Module SampleMint.
Definition env : OAuthMint.Env := {|
  OAuthMint.config_domain := "accounts.example.com";
  OAuthMint.config_oauth_url := "https://oauth.example.com";
  OAuthMint.publicKey_toJSON := "{kty:RSA}";
  OAuthMint.signer_sign := fun request =>
    Resolved (String.append "cert-for-" (OAuthMint.email request));
  OAuthMint.secretKey_sign := fun claims =>
    Resolved (String.append "assertion-for-" (OAuthMint.aud claims));
  OAuthMint.pool_post := fun _ body => Resolved (OAuthMint.assertion body);
  OAuthMint.Date_now := 1500000000000
|}.

End SampleMint.

Module SampleHeaders.
Definition of_string (s : string) : list Ascii.ascii := list_ascii_of_string s.

Definition short : list Ascii.ascii := of_string "  en-US,en;q=0.5  ".

(** 40 entries of 11 characters, 480 characters with the commas. *)
Definition long : list Ascii.ascii :=
  concat (replicate 40 (of_string "en-US;q=0.8,")).

Definition forwarded : list Ascii.ascii := of_string " 1.2.3.4 , 5.6.7.8,,".
Definition peer : list Ascii.ascii := of_string "10.0.0.1".

Definition chain : list (list Ascii.ascii) :=
  [of_string "1.2.3.4"; of_string "5.6.7.8"; of_string "10.0.0.1"].

(** A getter that counts its own runs. *)
Definition truthy (v : string) : bool := negb (String.eqb v "").
Definition getter (v : string) (runs : nat) : string * nat := (v, S runs).
End SampleHeaders.

Module SampleFailures.
Definition unavailable : AppError := otherError 201 "Service unavailable".

(** The QR code cannot be rendered. *)
Definition env_no_qr : Env :=
  mkEnv (Date_now Sample.env) (customs_check Sample.env)
        (authenticator_check Sample.env)
        (authenticator_generateSecret Sample.env)
        (authenticator_keyuri Sample.env)
        (fun _ => Rejected unavailable)
        (config_serviceName Sample.env)
        (HEX_STRING_test Sample.env)
        (db_outage Sample.env)
        (db_delete_signals_not_found Sample.env)
        (db_token_not_found Sample.env)
        (metrics_emit Sample.env)
        (db_create_refuses_existing Sample.env).

(** The metrics emission fails. *)
Definition env_no_metrics : Env :=
  mkEnv (Date_now Sample.env) (customs_check Sample.env)
        (authenticator_check Sample.env)
        (authenticator_generateSecret Sample.env)
        (authenticator_keyuri Sample.env)
        (qrcode_toDataURL Sample.env)
        (config_serviceName Sample.env)
        (HEX_STRING_test Sample.env)
        (db_outage Sample.env)
        (db_delete_signals_not_found Sample.env)
        (db_token_not_found Sample.env)
        (fun _ _ => Some unavailable)
        (db_create_refuses_existing Sample.env).

(** The store does not answer TOTP lookups. *)
Definition env_no_lookup : Env :=
  mkEnv (Date_now Sample.env) (customs_check Sample.env)
        (authenticator_check Sample.env)
        (authenticator_generateSecret Sample.env)
        (authenticator_keyuri Sample.env)
        (qrcode_toDataURL Sample.env)
        (config_serviceName Sample.env)
        (HEX_STRING_test Sample.env)
        (fun c => match c with
                  | call_totpToken _ => Some unavailable
                  | _ => None
                  end)
        (db_delete_signals_not_found Sample.env)
        (db_token_not_found Sample.env)
        (metrics_emit Sample.env)
        (db_create_refuses_existing Sample.env).
End SampleFailures.

(* ===================================================================== *)
(** * Unfolding promise chains *)
(* ===================================================================== *)

Create HintDb handlers.

#[global] Hint Unfold
  run reply_with then_ then2 catch resolve reject emit
  completion store_of events_of settled store_after events
  Customs.check Metrics.emitMetricsEvent Db.call
  Db.totpToken Db.createTotpToken Db.deleteTotpToken Db.updateTotpToken
  Db.verifyTokensWithMethod Db.pruneSessionTokens Db.getToken
  TotpCreate.handler TotpCreate.createTotpToken TotpCreate.emitMetrics
  TotpCreate.createResponse TotpCreate.sessionToken TotpCreate.uid
  TotpCreate.secret
  TotpDestroy.handler TotpDestroy.deleteTotpToken TotpDestroy.sessionToken
  TotpDestroy.uid
  TotpExists.handler TotpExists.getTotpToken TotpExists.sessionToken
  SessionVerifyTotp.handler SessionVerifyTotp.getTotpToken
  SessionVerifyTotp.verifyTotpCode SessionVerifyTotp.verifyTotpToken
  SessionVerifyTotp.verifySession SessionVerifyTotp.emitMetrics
  SessionVerifyTotp.sessionToken SessionVerifyTotp.uid SessionVerifyTotp.code
  : handlers.

(** Unfold a handler and evaluate as far as the hypotheses allow. *)
Ltac unchain := autounfold with handlers in *; cbn in *.

(** Case split on the first collaborator answer the goal is stuck on. *)
Ltac split_stuck :=
  match goal with
  | |- context [match ?x with _ => _ end] =>
      match type of x with
      | option _ => destruct x eqn:?
      | Settled _ => destruct x eqn:?
      | bool => destruct x eqn:?
      | sumbool _ _ => destruct x
      end; cbn in *
  end.

Ltac unchain_all := unchain; repeat (split_stuck; try congruence).

#[global] Hint Unfold
  Server.nonceCheck Server.makeCredentialFn Server.on_token
  Server.getCredentialsFunc : handlers.

(* ===================================================================== *)
(** * GET /totp/exists *)
(* ===================================================================== *)

Section ExistsFacts.
Context (env : Env) (request : Request) (s : Store).
Let uid := Token.uid (credentials request).

Hypothesis session_verified :
  Token.tokenVerificationId (credentials request) = None.
Hypothesis lookup_answers : db_outage env (call_totpToken uid) = None.
Hypothesis delete_answers : db_outage env (call_deleteTotpToken uid) = None.

Lemma exists_absent :
  totp s !! uid = None ->
  TotpExists.handler env request s
  = (Replied (Resolved (body_exists false)), s,
     [log_begin "totp.exists"; db (call_totpToken uid)]).
Proof.
  intros Habs. unchain. rewrite session_verified. cbn.
  fold uid. rewrite lookup_answers, Habs. reflexivity.
Qed.

Lemma exists_unverified tok :
  totp s !! uid = Some tok ->
  TotpToken.verified tok = false ->
  TotpExists.handler env request s
  = (Replied (Resolved (body_exists false)),
     mkStore (delete uid (totp s)) (tokens s),
     [log_begin "totp.exists"; db (call_totpToken uid);
      db (call_deleteTotpToken uid)]).
Proof.
  intros Htok Hv. unchain. rewrite session_verified. cbn.
  fold uid. rewrite lookup_answers, Htok. cbn. rewrite Hv. cbn.
  rewrite delete_answers, Htok. reflexivity.
Qed.

Lemma exists_verified tok :
  totp s !! uid = Some tok ->
  TotpToken.verified tok = true ->
  TotpExists.handler env request s
  = (Replied (Resolved (body_exists true)), s,
     [log_begin "totp.exists"; db (call_totpToken uid)]).
Proof.
  intros Htok Hv. unchain. rewrite session_verified. cbn.
  fold uid. rewrite lookup_answers, Htok. cbn. rewrite Hv. reflexivity.
Qed.
End ExistsFacts.

(** A Create that replied with a body has persisted a fresh, unverified
    row for the caller and touched nothing else. *)
Lemma create_replied_body env request s b :
  completion (TotpCreate.handler env request s) = Replied (Resolved b) ->
  Token.tokenVerificationId (credentials request) = None /\
  store_of (TotpCreate.handler env request s)
  = mkStore (<[Token.uid (credentials request) :=
                 TotpToken.mk (Token.uid (credentials request))
                              (authenticator_generateSecret env) false false 0]>
               (totp s))
            (tokens s).
Proof.
  unchain_all; intros; try discriminate; auto.
Qed.

(** C1. For a caller whose session is verified (and a store that answers
    the lookup and the delete), the exists route replies [exists = false]
    and leaves the store as it is when no TotpToken is stored; when the
    stored TotpToken has [verified = false] it issues the delete, replies
    [exists = false] and the row is gone (all other rows and all bearer
    tokens are untouched); when the stored TotpToken has [verified = true]
    it replies [exists = true] and leaves the store as it is.  Hence a
    Create that succeeded, followed by Exists, replies [exists = false]
    and leaves no TotpToken, and a second Exists only performs the lookup
    and again replies [exists = false]. *)
Theorem exists_reports_only_verified_tokens env request s :
  let uid := Token.uid (credentials request) in
  let exists_from := TotpExists.handler env request in
  Token.tokenVerificationId (credentials request) = None ->
  db_outage env (call_totpToken uid) = None ->
  db_outage env (call_deleteTotpToken uid) = None ->
  (totp s !! uid = None ->
     completion (exists_from s) = Replied (Resolved (body_exists false)) /\
     store_of (exists_from s) = s) /\
  (forall tok, totp s !! uid = Some tok -> TotpToken.verified tok = false ->
     completion (exists_from s) = Replied (Resolved (body_exists false)) /\
     In (db (call_deleteTotpToken uid)) (events_of (exists_from s)) /\
     totp (store_of (exists_from s)) = delete uid (totp s) /\
     totp (store_of (exists_from s)) !! uid = None /\
     tokens (store_of (exists_from s)) = tokens s) /\
  (forall tok, totp s !! uid = Some tok -> TotpToken.verified tok = true ->
     completion (exists_from s) = Replied (Resolved (body_exists true)) /\
     store_of (exists_from s) = s /\
     forallb (fun e => negb (is_store_mutation e)) (events_of (exists_from s))
     = true) /\
  (forall b,
     completion (TotpCreate.handler env request s) = Replied (Resolved b) ->
     let s1 := store_of (TotpCreate.handler env request s) in
     let s2 := store_of (exists_from s1) in
     completion (exists_from s1) = Replied (Resolved (body_exists false)) /\
     totp s2 !! uid = None /\
     completion (exists_from s2) = Replied (Resolved (body_exists false)) /\
     events_of (exists_from s2)
     = [log_begin "totp.exists"; db (call_totpToken uid)]).
Proof.
  intros uid exists_from Hsess Hget Hdel.
  subst exists_from. split; [|split; [|split]].
  - intros Habs. rewrite (exists_absent env request s Hsess Hget Habs).
    split; reflexivity.
  - intros tok Htok Hv.
    rewrite (exists_unverified env request s Hsess Hget Hdel tok Htok Hv).
    cbn. fold uid. rewrite lookup_delete_eq. intuition.
  - intros tok Htok Hv.
    rewrite (exists_verified env request s Hsess Hget tok Htok Hv).
    cbn. intuition.
  - intros b Hb s1 s2.
    destruct (create_replied_body env request s b Hb) as [_ Hs1].
    fold uid in Hs1.
    assert (H1 : totp s1 !! uid
                 = Some (TotpToken.mk uid (authenticator_generateSecret env)
                                      false false 0)).
    { subst s1. rewrite Hs1. cbn. apply lookup_insert_eq. }
    pose proof (exists_unverified env request s1 Hsess Hget Hdel _ H1 eq_refl)
      as E1.
    assert (H2 : totp s2 !! uid = None).
    { subst s2. rewrite E1. cbn. apply lookup_delete_eq. }
    pose proof (exists_absent env request s2 Hsess Hget H2) as E2.
    rewrite E2. subst s2. rewrite E1 in *. cbn in *. intuition.
Qed.

Lemma exists_reports_only_verified_tokens_witness :
  completion (TotpExists.handler Sample.env (Sample.request None "")
                (Sample.with_totp false false))
  = Replied (Resolved (body_exists false)) /\
  completion (TotpExists.handler Sample.env (Sample.request None "")
                (Sample.with_totp true true))
  = Replied (Resolved (body_exists true)).
Proof.
  split.
  - refine (proj1 (proj1 (proj2
      (exists_reports_only_verified_tokens Sample.env (Sample.request None "")
         (Sample.with_totp false false) eq_refl eq_refl eq_refl))
      (TotpToken.mk "u1" "3132" false false 0) _ eq_refl)).
    vm_compute. reflexivity.
  - refine (proj1 (proj1 (proj2 (proj2
      (exists_reports_only_verified_tokens Sample.env (Sample.request None "")
         (Sample.with_totp true true) eq_refl eq_refl eq_refl)))
      (TotpToken.mk "u1" "3132" true true 0) _ eq_refl)).
    vm_compute. reflexivity.
Defined.

(* ===================================================================== *)
(** * POST /session/verify/totp *)
(* ===================================================================== *)

Section VerifyFacts.
Context (env : Env) (request : Request) (s : Store) (tok : TotpToken.t).
Let uid := Token.uid (credentials request).
Let valid :=
  authenticator_check env (payload_code request) (TotpToken.sharedSecret tok).

Hypothesis customs_passes :
  customs_check env request "sessionVerifyTotp" = None.
Hypothesis store_answers : healthy env.
Hypothesis stored : totp s !! uid = Some tok.

(** The whole run, by cases on the code, the flag and the session. *)
Lemma verify_run :
  SessionVerifyTotp.handler env request s
  = (Replied (Resolved (body_success valid)),
     mkStore
       (if valid && negb (TotpToken.verified tok)
        then <[uid := TotpToken.with_flags true true tok]> (totp s)
        else totp s)
       (if valid && bool_decide (is_Some (Token.tokenVerificationId
                                            (credentials request)))
        then alter (Token.with_tokenVerificationId None)
                   (Token.id (credentials request)) (tokens s)
        else tokens s),
     [log_begin "session.verify.totp";
      customs_check_called "sessionVerifyTotp";
      db (call_totpToken uid)]
     ++ (if valid && negb (TotpToken.verified tok)
         then [db (call_updateTotpToken uid true true)] else [])
     ++ (if valid && bool_decide (is_Some (Token.tokenVerificationId
                                             (credentials request)))
         then [db (call_verifyTokensWithMethod
                     (Token.id (credentials request)) "totp-2fa")]
         else [])
     ++ [log_info (if valid then "totp.verified" else "totp.unverified") uid;
         emitMetricsEvent
           (if valid then "totpToken.verified" else "totpToken.unverified")
           uid]).
Proof.
  unchain. rewrite customs_passes. cbn. fold uid.
  rewrite !store_answers, stored. cbn. fold valid.
  destruct valid eqn:Hvalid, (TotpToken.verified tok) eqn:Hver,
    (Token.tokenVerificationId (credentials request)) eqn:Htv;
    cbn; rewrite ?store_answers, ?stored; cbn;
    rewrite ?store_answers; cbn; destruct s; reflexivity.
Qed.
End VerifyFacts.

(** An invalid code leaves the store as it is, whatever customs and the
    store do. *)
Lemma verify_invalid_keeps_store env request s :
  (forall tok, totp s !! Token.uid (credentials request) = Some tok ->
     authenticator_check env (payload_code request)
                         (TotpToken.sharedSecret tok) = false) ->
  store_of (SessionVerifyTotp.handler env request s) = s.
Proof.
  intros Hbad. unchain.
  destruct (customs_check env request "sessionVerifyTotp"); cbn; [reflexivity|].
  destruct (db_outage env _); cbn; [reflexivity|].
  destruct (totp s !! Token.uid (credentials request)) as [tok|] eqn:Htok;
    cbn; [|reflexivity].
  rewrite (Hbad tok eq_refl). cbn. reflexivity.
Qed.

Lemma attempts_invalid env request s tok n :
  customs_check env request "sessionVerifyTotp" = None ->
  healthy env ->
  totp s !! Token.uid (credentials request) = Some tok ->
  authenticator_check env (payload_code request) (TotpToken.sharedSecret tok)
  = false ->
  attempts env request n s
  = (repeat (Replied (Resolved (body_success false))) n, s).
Proof.
  intros Hc Hh Hs Hbad. induction n as [|n IH]; [reflexivity|].
  cbn [attempts repeat].
  rewrite (verify_run env request s tok Hc Hh Hs), Hbad.
  cbn. destruct s as [tp tk]. cbn in *.
  change {| totp := tp; tokens := tk |} with (mkStore tp tk) in *.
  rewrite IH. reflexivity.
Qed.

(** C2. For a stored TotpToken and a submitted code (customs lets the
    request pass and the store answers): the handler issues
    [updateTotpToken] if and only if the code checks valid against the
    shared secret and the token's [verified] flag was false; it then
    issues exactly one update, carrying [verified = true] and
    [enabled = true], and the stored row gets both flags; otherwise the
    TOTP table is unchanged.  The reply is [success = valid], never an
    error: an invalid code gives [success = false] and leaves the store
    as it is, also under any number of repeated invalid attempts. *)
Theorem verify_code_updates_iff_valid_and_unverified env request s tok :
  let uid := Token.uid (credentials request) in
  let valid :=
    authenticator_check env (payload_code request)
                        (TotpToken.sharedSecret tok) in
  let o := SessionVerifyTotp.handler env request s in
  customs_check env request "sessionVerifyTotp" = None ->
  healthy env ->
  totp s !! uid = Some tok ->
  ((exists e, In e (events_of o) /\ is_updateTotpToken e = true)
   <-> valid = true /\ TotpToken.verified tok = false) /\
  (valid = true -> TotpToken.verified tok = false ->
     filter (fun e => is_updateTotpToken e = true) (events_of o)
     = [db (call_updateTotpToken uid true true)] /\
     totp (store_of o) = <[uid := TotpToken.with_flags true true tok]> (totp s) /\
     totp (store_of o) !! uid
     = Some (TotpToken.mk (TotpToken.uid tok) (TotpToken.sharedSecret tok)
                          true true (TotpToken.epoch tok))) /\
  (valid = false \/ TotpToken.verified tok = true ->
     totp (store_of o) = totp s) /\
  completion o = Replied (Resolved (body_success valid)) /\
  (valid = false ->
     store_of o = s /\
     forall n, attempts env request n s
               = (repeat (Replied (Resolved (body_success false))) n, s)).
Proof.
  intros uid valid o Hc Hh Hs. subst o.
  pose proof (verify_run env request s tok Hc Hh Hs) as Hrun.
  fold uid valid in Hrun. rewrite Hrun. clear Hrun. cbn.
  destruct valid eqn:Hvalid, (TotpToken.verified tok) eqn:Hver;
    destruct (bool_decide (is_Some (Token.tokenVerificationId
                                      (credentials request)))); cbn;
    repeat split; intros;
    repeat match goal with
      | H : exists _, _ |- _ => destruct H
      | H : _ /\ _ |- _ => destruct H
      | H : _ \/ _ |- _ => destruct H
      | H : In _ _ |- _ => cbn in H
      | H : False |- _ => destruct H
      end;
    subst; cbn in *; try congruence; try discriminate;
    try (rewrite lookup_insert_eq; reflexivity);
    try (destruct s; reflexivity);
    try (eexists; split; [right; right; right; left; reflexivity | reflexivity]);
    try (apply (attempts_invalid env request s tok); assumption).
Qed.

Lemma verify_code_updates_iff_valid_and_unverified_witness :
  customs_check Sample.env (Sample.request None "123456") "sessionVerifyTotp"
  = None /\
  healthy Sample.env /\
  totp (Sample.with_totp false false) !! "u1"
  = Some (TotpToken.mk "u1" "3132" false false 0) /\
  completion (SessionVerifyTotp.handler Sample.env
                (Sample.request None "123456") (Sample.with_totp false false))
  = Replied (Resolved (body_success true)).
Proof.
  assert (Hh : healthy Sample.env) by (intros c; reflexivity).
  assert (Hs : totp (Sample.with_totp false false) !! "u1"
               = Some (TotpToken.mk "u1" "3132" false false 0))
    by (vm_compute; reflexivity).
  split; [reflexivity | split; [exact Hh | split; [exact Hs |]]].
  exact (proj1 (proj2 (proj2 (proj2
    (verify_code_updates_iff_valid_and_unverified Sample.env
       (Sample.request None "123456") (Sample.with_totp false false)
       (TotpToken.mk "u1" "3132" false false 0) eq_refl Hh Hs))))).
Defined.

(** Every session-verification call the handler can issue is the one
    for the calling session with method "totp-2fa", and it is only issued
    for a valid code and a session that carries a tokenVerificationId. *)
Lemma verify_session_call_only_if env request s e :
  In e (events_of (SessionVerifyTotp.handler env request s)) ->
  is_verifyTokensWithMethod e = true ->
  e = db (call_verifyTokensWithMethod (Token.id (credentials request)) "totp-2fa")
  /\ is_Some (Token.tokenVerificationId (credentials request))
  /\ exists tok,
       totp s !! Token.uid (credentials request) = Some tok /\
       authenticator_check env (payload_code request)
                           (TotpToken.sharedSecret tok) = true.
Proof.
  unchain_all; intros Hin He;
    repeat match goal with
      | H : _ \/ _ |- _ => destruct H
      | H : False |- _ => destruct H
      end; subst; try discriminate;
    repeat split; eauto.
Qed.

(** C3. The handler issues [verifyTokensWithMethod] if and only if the
    submitted code is valid and the session principal carries a
    tokenVerificationId; the call is the one for the calling session's id
    with method "totp-2fa", and it is issued once.  For a session without
    tokenVerificationId, or for an invalid code, no session-verification
    call occurs.  (The "only if" half needs no assumption on customs or
    on the store; the "if" half is for a request that customs lets pass
    and a store that answers.) *)
Theorem verify_code_verifies_session_iff env request s :
  let sessionToken := credentials request in
  let o := SessionVerifyTotp.handler env request s in
  let the_call :=
    db (call_verifyTokensWithMethod (Token.id sessionToken) "totp-2fa") in
  (forall e, In e (events_of o) -> is_verifyTokensWithMethod e = true ->
     e = the_call /\
     is_Some (Token.tokenVerificationId sessionToken) /\
     exists tok, totp s !! Token.uid sessionToken = Some tok /\
                 authenticator_check env (payload_code request)
                                     (TotpToken.sharedSecret tok) = true) /\
  (Token.tokenVerificationId sessionToken = None ->
     forall e, In e (events_of o) -> is_verifyTokensWithMethod e = false) /\
  ((forall tok, totp s !! Token.uid sessionToken = Some tok ->
      authenticator_check env (payload_code request)
                          (TotpToken.sharedSecret tok) = false) ->
     forall e, In e (events_of o) -> is_verifyTokensWithMethod e = false) /\
  (forall tok,
     customs_check env request "sessionVerifyTotp" = None ->
     healthy env ->
     totp s !! Token.uid sessionToken = Some tok ->
     authenticator_check env (payload_code request)
                         (TotpToken.sharedSecret tok) = true ->
     is_Some (Token.tokenVerificationId sessionToken) ->
     In the_call (events_of o) /\
     filter (fun e => is_verifyTokensWithMethod e = true) (events_of o)
     = [the_call] /\
     completion o = Replied (Resolved (body_success true))).
Proof.
  intros sessionToken o the_call.
  pose proof (verify_session_call_only_if env request s) as Honly.
  fold o sessionToken in Honly.
  split; [|split; [|split]].
  - intros e Hin He. exact (Honly e Hin He).
  - intros Hnone e Hin.
    destruct (is_verifyTokensWithMethod e) eqn:He; [|reflexivity].
    destruct (Honly e Hin He) as (_ & [v Hv] & _). congruence.
  - intros Hbad e Hin.
    destruct (is_verifyTokensWithMethod e) eqn:He; [|reflexivity].
    destruct (Honly e Hin He) as (_ & _ & tok & Htok & Hvalid).
    rewrite (Hbad tok Htok) in Hvalid. discriminate.
  - intros tok Hc Hh Hs Hvalid [v Hv]. subst o.
    rewrite (verify_run env request s tok Hc Hh Hs).
    fold sessionToken. rewrite Hvalid, Hv. cbn.
    destruct (TotpToken.verified tok); cbn; subst the_call; intuition.
Qed.

Lemma verify_code_verifies_session_iff_witness :
  In (db (call_verifyTokensWithMethod "a1b2" "totp-2fa"))
     (events_of (SessionVerifyTotp.handler Sample.env
                   (Sample.request (Some "c3d4") "123456")
                   (Sample.with_totp true true))) /\
  forall e,
    In e (events_of (SessionVerifyTotp.handler Sample.env
                       (Sample.request None "123456")
                       (Sample.with_totp true true))) ->
    is_verifyTokensWithMethod e = false.
Proof.
  split.
  - refine (proj1 (proj2 (proj2 (proj2
      (verify_code_verifies_session_iff Sample.env
         (Sample.request (Some "c3d4") "123456") (Sample.with_totp true true))))
      (TotpToken.mk "u1" "3132" true true 0) eq_refl (fun c => eq_refl) _
      eq_refl (ex_intro _ "c3d4" eq_refl))).
    vm_compute. reflexivity.
  - exact (proj1 (proj2
      (verify_code_verifies_session_iff Sample.env
         (Sample.request None "123456") (Sample.with_totp true true)))
      eq_refl).
Defined.

(* ===================================================================== *)
(** * The unverified-session guard *)
(* ===================================================================== *)

(** C4, as stated, fails for VerifyCode: a session that carries a
    tokenVerificationId submits a valid code; the route replies
    [success = true], updates the TotpToken and verifies the session. *)
Lemma unverified_session_guard_counterexample :
  let request := Sample.request (Some "c3d4") "123456" in
  let s := Sample.with_totp false false in
  Token.tokenVerificationId (credentials request) = Some "c3d4" /\
  customs_lets_pass Sample.env VerifyCode request /\
  completion (run Sample.env VerifyCode request s)
  = Replied (Resolved (body_success true)) /\
  events_of (run Sample.env VerifyCode request s)
  = [log_begin "session.verify.totp";
     customs_check_called "sessionVerifyTotp";
     db (call_totpToken "u1");
     db (call_updateTotpToken "u1" true true);
     db (call_verifyTokensWithMethod "a1b2" "totp-2fa");
     log_info "totp.verified" "u1";
     emitMetricsEvent "totpToken.verified" "u1"] /\
  totp (store_of (run Sample.env VerifyCode request s)) !! "u1"
  = Some (TotpToken.mk "u1" "3132" true true 0) /\
  ~ rejected_unverified_before_mutation Sample.env VerifyCode request s.
Proof.
  cbv zeta. repeat apply conj; try (vm_compute; reflexivity).
  intros (H & _). vm_compute in H. discriminate.
Qed.

(** The guard of the exists route is a [throw] in the handler body,
    outside any promise callback: the handler ends by that exception and
    [reply] is not called. *)
Lemma exists_guard_throws env request s :
  is_Some (Token.tokenVerificationId (credentials request)) ->
  TotpExists.handler env request s
  = (Threw unverifiedSession, s, [log_begin "totp.exists"]).
Proof.
  intros [v Hv]. unchain. rewrite Hv. reflexivity.
Qed.

(** C4, amended.  Create and Destroy, invoked with a session principal
    that carries a tokenVerificationId, reply the "unverified session"
    failure whenever customs lets the request pass, before any Token
    Store call.  Create, Destroy and Exists, invoked with such a
    principal, never reply with a body, make no Token Store call at all
    and leave the store as it is. *)
Theorem guarded_routes_reject_unverified_session env op request s :
  op <> VerifyCode ->
  is_Some (Token.tokenVerificationId (credentials request)) ->
  let o := run env op request s in
  (forall body, completion o <> Replied (Resolved body)) /\
  forallb (fun e => negb (is_store_access e)) (events_of o) = true /\
  forallb (fun e => negb (is_store_mutation e)) (events_of o) = true /\
  store_of o = s /\
  (op <> Exists -> customs_lets_pass env op request ->
   completion o = Replied (Rejected unverifiedSession) /\
   fails_with o unverifiedSession /\
   rejected_unverified_before_mutation env op request s).
Proof.
  intros Hop [v Hv] o. subst o.
  unfold rejected_unverified_before_mutation, fails_with, customs_lets_pass.
  destruct op; try congruence; cbn [customs_action];
    unchain; rewrite Hv; cbn;
    try (destruct (customs_check env request _) eqn:Hc; cbn);
    repeat split; intros; try congruence; try discriminate; auto.
Qed.

Lemma guarded_routes_reject_unverified_session_witness :
  completion (run Sample.env Create (Sample.request (Some "c3d4") "")
                (Sample.with_totp true true))
  = Replied (Rejected unverifiedSession) /\
  rejected_unverified_before_mutation Sample.env Destroy
    (Sample.request (Some "c3d4") "") (Sample.with_totp false false) /\
  store_of (run Sample.env Exists (Sample.request (Some "c3d4") "")
              (Sample.with_totp true true))
  = Sample.with_totp true true.
Proof.
  assert (Hne : forall op, op = Create \/ op = Destroy \/ op = Exists ->
                           op <> VerifyCode)
    by (intros op [->|[->| ->]]; discriminate).
  assert (Hcreate : Create <> Exists) by discriminate.
  assert (Hdestroy : Destroy <> Exists) by discriminate.
  split; [|split].
  - exact (proj1 (proj2 (proj2 (proj2 (proj2
      (guarded_routes_reject_unverified_session Sample.env Create
         (Sample.request (Some "c3d4") "") (Sample.with_totp true true)
         (Hne Create (or_introl eq_refl)) (ex_intro _ "c3d4" eq_refl)))))
      Hcreate eq_refl)).
  - exact (proj2 (proj2 (proj2 (proj2 (proj2 (proj2
      (guarded_routes_reject_unverified_session Sample.env Destroy
         (Sample.request (Some "c3d4") "") (Sample.with_totp false false)
         (Hne Destroy (or_intror (or_introl eq_refl)))
         (ex_intro _ "c3d4" eq_refl)))))
      Hdestroy eq_refl))).
  - exact (proj1 (proj2 (proj2 (proj2
      (guarded_routes_reject_unverified_session Sample.env Exists
         (Sample.request (Some "c3d4") "") (Sample.with_totp true true)
         (Hne Exists (or_intror (or_intror eq_refl)))
         (ex_intro _ "c3d4" eq_refl)))))).
Defined.

(* ===================================================================== *)
(** * The customs check comes first *)
(* ===================================================================== *)

Lemma customs_firstb_sound l :
  customs_firstb l = true -> customs_before_store l.
Proof.
  induction l as [|x l IH]; intros Hb pre e post Heq He.
  - destruct pre; discriminate.
  - cbn in Hb. destruct pre as [|y pre]; cbn in Heq; injection Heq as -> ->.
    + destruct (is_customs_check e) eqn:Hc.
      * destruct e; discriminate.
      * rewrite He in Hb. discriminate.
    + destruct (is_customs_check y) eqn:Hc.
      * exists y. split; [left; reflexivity | assumption].
      * apply andb_prop in Hb as [_ Hb].
        destruct (IH Hb pre e post eq_refl He) as (c & Hin & Hcc).
        exists c. split; [right; assumption | assumption].
Qed.

(** C5, as stated, fails for Exists: the route never asks customs.  With
    a customs collaborator that blocks every action, Exists still looks
    the TotpToken up, deletes the unverified row and replies
    [exists = false]. *)
Lemma customs_first_counterexample :
  let blocked := otherError 114 "Client has sent too many requests" in
  let env := mkEnv (Date_now Sample.env) (fun _ _ => Some blocked)
               (authenticator_check Sample.env)
               (authenticator_generateSecret Sample.env)
               (authenticator_keyuri Sample.env)
               (qrcode_toDataURL Sample.env)
               (config_serviceName Sample.env)
               (HEX_STRING_test Sample.env)
               (db_outage Sample.env)
               (db_delete_signals_not_found Sample.env)
               (db_token_not_found Sample.env)
               (metrics_emit Sample.env)
               (db_create_refuses_existing Sample.env) in
  let request := Sample.request None "" in
  let s := Sample.with_totp false false in
  completion (run env Exists request s)
  = Replied (Resolved (body_exists false)) /\
  events_of (run env Exists request s)
  = [log_begin "totp.exists"; db (call_totpToken "u1");
     db (call_deleteTotpToken "u1")] /\
  totp (store_of (run env Exists request s)) !! "u1" = None /\
  totp s !! "u1" = Some (TotpToken.mk "u1" "3132" false false 0) /\
  ~ customs_before_store (events_of (run env Exists request s)) /\
  ~ customs_checked_first env Exists request s.
Proof.
  cbv zeta. repeat apply conj; try (vm_compute; reflexivity).
  - intros H.
    destruct (H [log_begin "totp.exists"] (db (call_totpToken "u1"))
                [db (call_deleteTotpToken "u1")] eq_refl eq_refl)
      as (c & [<-|[]] & Hc).
    discriminate.
  - intros [H _].
    destruct (H [log_begin "totp.exists"] (db (call_totpToken "u1"))
                [db (call_deleteTotpToken "u1")] eq_refl eq_refl)
      as (c & [<-|[]] & Hc).
    discriminate.
Qed.

(** C5, amended.  Create, Destroy and VerifyCode ask customs before any
    Token Store access, and when customs rejects the route's action the
    rejection is replied at once: the only calls made are the request
    trace and the customs check itself, hence no store lookup, no state
    change and no telemetry.  (Exists does not ask customs.) *)
Theorem customs_check_precedes_store env op request s :
  op <> Exists ->
  let o := run env op request s in
  customs_before_store (events_of o) /\
  (exists action, customs_action op = Some action /\
     In (customs_check_called action) (events_of o)) /\
  forall action err,
    customs_action op = Some action ->
    customs_check env request action = Some err ->
    completion o = Replied (Rejected err) /\
    (exists name,
       events_of o = [log_begin name; customs_check_called action]) /\
    forallb (fun e => negb (is_store_access e)) (events_of o) = true /\
    forallb (fun e => negb (is_telemetry e)) (events_of o) = true /\
    store_of o = s.
Proof.
  intros Hop o. subst o. split; [|split].
  - apply customs_firstb_sound.
    destruct op; try congruence; unchain_all; reflexivity.
  - destruct op; try congruence; cbn [customs_action];
      eexists; (split; [reflexivity|]);
      unchain_all; auto.
  - intros action err Hact Hc.
    destruct op; try congruence; cbn in Hact; injection Hact as <-;
      unchain; rewrite Hc; cbn; repeat split; eauto.
Qed.

Lemma customs_check_precedes_store_witness :
  customs_before_store
    (events_of (run Sample.env VerifyCode (Sample.request None "123456")
                  (Sample.with_totp false false))) /\
  customs_before_store
    (events_of (run Sample.env Create (Sample.request None "")
                  Sample.empty)).
Proof.
  split.
  - refine (proj1 (customs_check_precedes_store Sample.env VerifyCode
                     (Sample.request None "123456")
                     (Sample.with_totp false false) _)).
    discriminate.
  - refine (proj1 (customs_check_precedes_store Sample.env Create
                     (Sample.request None "") Sample.empty _)).
    discriminate.
Defined.

(* ===================================================================== *)
(** * POST /totp/destroy *)
(* ===================================================================== *)

(** C6, as stated, fails: on a Token Store that signals not-found when
    the row to delete is not there, Destroy for a user without TotpToken
    replies with that failure, and so does the second of two Destroy
    calls in a row. *)
Lemma destroy_idempotent_counterexample :
  let env := mkEnv (Date_now Sample.env) (customs_check Sample.env)
               (authenticator_check Sample.env)
               (authenticator_generateSecret Sample.env)
               (authenticator_keyuri Sample.env)
               (qrcode_toDataURL Sample.env)
               (config_serviceName Sample.env)
               (HEX_STRING_test Sample.env)
               (db_outage Sample.env)
               true
               (db_token_not_found Sample.env)
               (metrics_emit Sample.env)
               (db_create_refuses_existing Sample.env) in
  let request := Sample.request None "" in
  let first := run env Destroy request (Sample.with_totp true true) in
  let second := run env Destroy request (store_of first) in
  Token.tokenVerificationId (credentials request) = None /\
  completion (run env Destroy request Sample.empty)
  = Replied (Rejected totpTokenNotFound) /\
  completion first = Replied (Resolved body_empty) /\
  completion second = Replied (Rejected totpTokenNotFound) /\
  completion second <> Replied (Resolved body_empty).
Proof.
  cbv zeta. repeat apply conj; try (vm_compute; reflexivity).
  vm_compute. discriminate.
Qed.

(** C6, amended.  For a user with a verified session (and a request
    that customs lets pass), Destroy replies exactly what the store's
    delete signals: the empty body when the delete resolves, and the
    delete's failure -- not-found included -- when it rejects.  On a store
    whose delete resolves for a missing row, Destroy replies the empty
    body whether or not a TotpToken exists, leaves none, and a second
    Destroy replies the empty body again. *)
Theorem destroy_replies_what_delete_signals env request s :
  let uid := Token.uid (credentials request) in
  let o := TotpDestroy.handler env request s in
  let d := Db.deleteTotpToken env uid s in
  Token.tokenVerificationId (credentials request) = None ->
  customs_check env request "totpDestroy" = None ->
  completion o
  = Replied match settled d with
            | Resolved _ => Resolved body_empty
            | Rejected err => Rejected err
            end /\
  store_of o = store_after d /\
  (db_outage env (call_deleteTotpToken uid) = None ->
   db_delete_signals_not_found env = false ->
   completion o = Replied (Resolved body_empty) /\
   totp (store_of o) !! uid = None /\
   completion (TotpDestroy.handler env request (store_of o))
   = Replied (Resolved body_empty) /\
   store_of (TotpDestroy.handler env request (store_of o)) = store_of o) /\
  (db_outage env (call_deleteTotpToken uid) = None ->
   db_delete_signals_not_found env = true ->
   totp s !! uid = None ->
   completion o = Replied (Rejected totpTokenNotFound) /\ store_of o = s).
Proof.
  intros uid o d Hsess Hc. subst o d uid.
  unchain. rewrite Hsess, Hc. cbn.
  destruct (db_outage env (call_deleteTotpToken _)) eqn:Hout; cbn.
  { repeat split; intros; discriminate. }
  destruct (totp s !! _) as [tok|] eqn:Htok; cbn.
  - repeat split; intros; try discriminate;
      rewrite ?Hout; cbn; rewrite ?lookup_delete_eq;
      try match goal with H : db_delete_signals_not_found env = _ |- _ =>
            rewrite H end;
      reflexivity.
  - destruct (db_delete_signals_not_found env) eqn:Hsig; cbn;
      repeat split; intros; try discriminate; try assumption;
      rewrite ?Hout; cbn; rewrite ?Htok, ?Hsig; reflexivity.
Qed.

Lemma destroy_replies_what_delete_signals_witness :
  let request := Sample.request None "" in
  let first := TotpDestroy.handler Sample.env request (Sample.with_totp true true) in
  completion first = Replied (Resolved body_empty) /\
  completion (TotpDestroy.handler Sample.env request (store_of first))
  = Replied (Resolved body_empty).
Proof.
  cbv zeta.
  pose proof (destroy_replies_what_delete_signals Sample.env
                (Sample.request None "") (Sample.with_totp true true)
                eq_refl eq_refl) as H.
  destruct H as (_ & _ & H & _).
  destruct (H eq_refl eq_refl) as (H1 & _ & H2 & _).
  split; [exact H1 | exact H2].
Defined.

(* ===================================================================== *)
(** * Credential resolution *)
(* ===================================================================== *)

(** The continuation is always called. *)
Lemma makeCredentialFn_calls_back env dbGetFn id s :
  exists c, settled (Server.makeCredentialFn env dbGetFn id s) = Resolved c.
Proof.
  unchain. destruct (HEX_STRING_test env id); cbn; [|eauto].
  destruct (dbGetFn id s) as [[[token|err] s1] ev1]; cbn; [|eauto].
  destruct (Token.expired token (Date_now env)); cbn; [|eauto].
  destruct (bool_decide _); cbn; [|eauto].
  destruct (db_outage env _); cbn; eauto.
Qed.

(** C7. When the accessor yields a token whose expiry time is before the
    current time, credential resolution calls back with the
    "invalid/expired token" failure.  For a session token it first issues
    [pruneSessionTokens] for the token's owner and that token; the token
    is gone from the store when the pruning succeeds, and when the
    pruning fails the failure is swallowed: the call-back is the same
    expired-token failure.  For a token of another kind no pruning call is
    made and the store is left as the accessor left it. *)
Theorem expired_token_is_rejected_and_session_pruned
    env dbGetFn id s token s1 ev1 e :
  let o := Server.makeCredentialFn env dbGetFn id s in
  let prune :=
    call_pruneSessionTokens (Token.uid token) [Token.id token] in
  HEX_STRING_test env id = true ->
  dbGetFn id s = (Resolved token, s1, ev1) ->
  Token.expiresAt token = Some e ->
  e < Date_now env ->
  settled o = Resolved (Server.cb_error expired_failure) /\
  (Token.tokenTypeID token = "sessionToken" ->
     events o = [log_trace_getToken id] ++ ev1 ++ [db prune] /\
     (db_outage env prune = None ->
        store_after o
        = mkStore (totp s1) (delete (Token.id token) (tokens s1)) /\
        tokens (store_after o) !! Token.id token = None) /\
     (forall err, db_outage env prune = Some err ->
        store_after o = s1 /\
        settled o = Resolved (Server.cb_error expired_failure))) /\
  (Token.tokenTypeID token <> "sessionToken" ->
     events o = [log_trace_getToken id] ++ ev1 /\
     store_after o = s1).
Proof.
  intros o prune Hhex Hget Hexp Hlt. subst o prune.
  unchain. rewrite Hhex. cbn. rewrite Hget. cbn.
  unfold Token.expired. rewrite Hexp.
  assert (Hb : (e <? Date_now env) = true) by (apply Z.ltb_lt; exact Hlt).
  rewrite Hb.
  destruct (bool_decide (Token.tokenTypeID token = "sessionToken")) eqn:Hk.
  - apply bool_decide_eq_true in Hk.
    destruct (db_outage env _) eqn:Hout; cbn;
      (split; [reflexivity|]); (split; [|intros Hne; congruence]);
      intros _; rewrite ?app_nil_r; (split; [reflexivity|]);
      split; intros; try discriminate; try (split; reflexivity).
    split; [reflexivity | apply lookup_delete_eq].
  - apply bool_decide_eq_false in Hk. cbn.
    split; [reflexivity|]. split; [intros Heq; congruence|].
    intros _. rewrite ?app_nil_r. split; reflexivity.
Qed.

Lemma expired_token_is_rejected_and_session_pruned_witness :
  let o := Server.getCredentialsFunc Sample.env "sessionToken" "a1b2"
             SampleTokens.store in
  HEX_STRING_test Sample.env "a1b2" = true /\
  1499999999999 < Date_now Sample.env /\
  settled o = Resolved (Server.cb_error expired_failure) /\
  tokens (store_after o) !! "a1b2" = None /\
  tokens SampleTokens.store !! "a1b2" = Some SampleTokens.expired_session.
Proof.
  cbv zeta.
  assert (Hget : Db.getToken Sample.env "sessionToken" "a1b2" SampleTokens.store
                 = (Resolved SampleTokens.expired_session, SampleTokens.store,
                    [db (call_getToken "sessionToken" "a1b2")]))
    by (vm_compute; reflexivity).
  assert (Hlt : 1499999999999 < Date_now Sample.env) by (cbn; lia).
  pose proof (expired_token_is_rejected_and_session_pruned Sample.env
                (Db.getToken Sample.env "sessionToken") "a1b2"
                SampleTokens.store SampleTokens.expired_session
                SampleTokens.store _ 1499999999999
                eq_refl Hget eq_refl Hlt) as (Hcb & Hsess & _).
  destruct (Hsess eq_refl) as (_ & Hpruned & _).
  destruct (Hpruned eq_refl) as (_ & Hgone).
  split; [reflexivity|]. split; [exact Hlt|].
  split; [exact Hcb|]. split; [exact Hgone|].
  vm_compute. reflexivity.
Defined.

(** C8, as stated, fails: for the session strategy the malformed id "zz"
    is answered with [cb(null, null)], the unknown id "ffff" with the
    store accessor's failure, and the expired token "a1b2" with the
    failure that says the token has expired. *)
Lemma resolution_answers_counterexample :
  let resolve_id := Server.getCredentialsFunc Sample.env "sessionToken" in
  let s := SampleTokens.store in
  HEX_STRING_test Sample.env "zz" = false /\
  HEX_STRING_test Sample.env "ffff" = true /\
  tokens s !! "ffff" = None /\
  tokens s !! "a1b2" = Some SampleTokens.expired_session /\
  Token.expired SampleTokens.expired_session (Date_now Sample.env) = true /\
  settled (resolve_id "zz" s) = Resolved Server.cb_not_found /\
  settled (resolve_id "ffff" s)
  = Resolved (Server.cb_error (db_token_not_found Sample.env)) /\
  settled (resolve_id "a1b2" s)
  = Resolved (Server.cb_error
                (invalidToken "The authentication token has expired")) /\
  settled (resolve_id "zz" s) <> settled (resolve_id "a1b2" s) /\
  ~ same_answer Sample.env "sessionToken" s "zz" "ffff" "a1b2".
Proof.
  cbv zeta. repeat apply conj; try (vm_compute; reflexivity).
  - vm_compute. discriminate.
  - intros [H _]. vm_compute in H. discriminate.
Qed.

(** C8, amended.  For every strategy-bound accessor: a malformed id
    never surfaces a format error -- without any store call, resolution
    answers "no credentials" ([cb(null, null)]), and an answer that
    carries an error is never the answer to a malformed id; an id the
    accessor rejects is answered with the accessor's own failure,
    unchanged; a token that is present but expired is answered with the
    invalid-token failure whose message says that the token has
    expired. *)
Theorem malformed_id_is_answered_not_found env dbGetFn id s :
  let o := Server.makeCredentialFn env dbGetFn id s in
  (HEX_STRING_test env id = false ->
     settled o = Resolved Server.cb_not_found /\
     store_after o = s /\
     events o = [log_trace_getToken id]) /\
  (forall err, settled o = Resolved (Server.cb_error err) ->
     HEX_STRING_test env id = true) /\
  (forall err s1 ev1,
     HEX_STRING_test env id = true ->
     dbGetFn id s = (Rejected err, s1, ev1) ->
     settled o = Resolved (Server.cb_error err) /\
     store_after o = s1 /\
     events o = [log_trace_getToken id] ++ ev1) /\
  (forall token s1 ev1,
     HEX_STRING_test env id = true ->
     dbGetFn id s = (Resolved token, s1, ev1) ->
     Token.expired token (Date_now env) = true ->
     settled o
     = Resolved (Server.cb_error
                   (invalidToken "The authentication token has expired"))).
Proof.
  intros o. subst o. unchain.
  destruct (HEX_STRING_test env id) eqn:Hhex; cbn.
  - split; [discriminate|]. split; [reflexivity|]. split.
    + intros err s1 ev1 _ Hget. rewrite Hget. cbn.
      rewrite app_nil_r. repeat split.
    + intros token s1 ev1 _ Hget Hexp. rewrite Hget. cbn. rewrite Hexp.
      destruct (bool_decide _); cbn; [|reflexivity].
      destruct (db_outage env _); reflexivity.
  - split; [repeat split|]. split; [discriminate|].
    split; intros; discriminate.
Qed.

Lemma malformed_id_is_answered_not_found_witness :
  HEX_STRING_test Sample.env "not-hex!" = false /\
  settled (Server.getCredentialsFunc Sample.env "keyFetchToken" "not-hex!"
             SampleTokens.store)
  = Resolved Server.cb_not_found /\
  settled (Server.getCredentialsFunc Sample.env "keyFetchToken" "c3d4"
             SampleTokens.store)
  = Resolved (Server.cb_error
                (invalidToken "The authentication token has expired")).
Proof.
  split; [reflexivity|]. split.
  - exact (proj1 (proj1
      (malformed_id_is_answered_not_found Sample.env
         (Db.getToken Sample.env "keyFetchToken") "not-hex!"
         SampleTokens.store) eq_refl)).
  - refine (proj2 (proj2 (proj2
      (malformed_id_is_answered_not_found Sample.env
         (Db.getToken Sample.env "keyFetchToken") "c3d4"
         SampleTokens.store)))
      SampleTokens.expired_keyFetch SampleTokens.store
      [db (call_getToken "keyFetchToken" "c3d4")] eq_refl _ eq_refl).
    vm_compute. reflexivity.
Defined.

(* ===================================================================== *)
(** * The nonce check *)
(* ===================================================================== *)

Lemma nonceChecks_accept env presented s :
  Server.nonceChecks env presented s
  = (map (fun _ => Server.nonce_accepted) presented, s).
Proof.
  induction presented as [|[[key nonce] ts] rest IH]; [reflexivity|].
  cbn. rewrite IH. reflexivity.
Qed.

(** C10. For every key identifier, nonce and timestamp the nonce check
    calls its continuation without an error and leaves the store as it
    is; the only thing it does is trace the skew between the clock (in
    seconds) and the timestamp.  A nonce presented again is accepted
    again, and so is every request of any run of requests, whatever
    nonces repeat in it. *)
Theorem nonce_check_always_accepts env key nonce ts s :
  Server.nonceCheck env key nonce ts s
  = (Server.nonce_accepted, s,
     [log_trace_nonceFunc
        (inject_Z (Date_now env) / inject_Z 1000 - ts)%Q]) /\
  (forall ts', (Server.nonceCheck env key nonce ts' s).1.1
               = Server.nonce_accepted) /\
  (forall presented,
     Forall (fun v => v = Server.nonce_accepted)
            (Server.nonceChecks env ((key, nonce, ts) :: presented) s).1 /\
     (Server.nonceChecks env ((key, nonce, ts) :: presented) s).2 = s).
Proof.
  split; [reflexivity|]. split; [reflexivity|].
  intros presented. rewrite nonceChecks_accept. cbn. split; [|reflexivity].
  constructor; [reflexivity|].
  induction presented; cbn; constructor; auto.
Qed.

(* ===================================================================== *)
(** * Assertion bundles *)
(* ===================================================================== *)






(* ===================================================================== *)
(** * Strings: trim and split *)
(* ===================================================================== *)

Lemma length_trimStart s : (length (JsString.trimStart s) <= length s)%nat.
Proof.
  induction s as [|c s IH]; cbn; [lia|].
  destruct (JsString.is_white_space c); cbn; lia.
Qed.

Lemma length_trimEnd s : (length (JsString.trimEnd s) <= length s)%nat.
Proof.
  induction s as [|c s IH]; cbn; [lia|].
  destruct (JsString.trimEnd s) as [|d r]; cbn in *;
    [destruct (JsString.is_white_space c); cbn; lia | lia].
Qed.

Lemma length_trim s : (length (JsString.trim s) <= length s)%nat.
Proof.
  unfold JsString.trim.
  pose proof (length_trimEnd (JsString.trimStart s)).
  pose proof (length_trimStart s). lia.
Qed.

Lemma trimEnd_idempotent s :
  JsString.trimEnd (JsString.trimEnd s) = JsString.trimEnd s.
Proof.
  induction s as [|c s IH]; [reflexivity|]. cbn.
  destruct (JsString.trimEnd s) as [|d r] eqn:E.
  - destruct (JsString.is_white_space c) eqn:Hc; cbn; [reflexivity|].
    rewrite Hc. reflexivity.
  - cbn [JsString.trimEnd] in *. fold JsString.trimEnd in *.
    change (JsString.trimEnd (c :: d :: r))
      with (match JsString.trimEnd (d :: r) with
            | [] => if JsString.is_white_space c then [] else [c]
            | x :: r0 => c :: x :: r0
            end).
    rewrite IH. reflexivity.
Qed.

(** A string that does not start with white space keeps its first
    character under [trimEnd]. *)
Lemma trimStart_trimEnd_head c s :
  JsString.is_white_space c = false ->
  exists r, JsString.trimEnd (c :: s) = c :: r.
Proof.
  intros Hc. cbn. destruct (JsString.trimEnd s); [rewrite Hc|]; eauto.
Qed.

Lemma trimStart_head s :
  JsString.trimStart s = [] \/
  exists c r, JsString.trimStart s = c :: r /\ JsString.is_white_space c = false.
Proof.
  induction s as [|c s IH]; cbn; [left; reflexivity|].
  destruct (JsString.is_white_space c) eqn:Hc; [exact IH|].
  right. eauto.
Qed.

Lemma trimStart_trim s : JsString.trimStart (JsString.trim s) = JsString.trim s.
Proof.
  unfold JsString.trim.
  destruct (trimStart_head s) as [->|(c & r & -> & Hc)]; [reflexivity|].
  destruct (trimStart_trimEnd_head c r Hc) as [r' ->].
  cbn. rewrite Hc. reflexivity.
Qed.

Lemma trim_idempotent s : JsString.trim (JsString.trim s) = JsString.trim s.
Proof.
  unfold JsString.trim at 1. rewrite trimStart_trim.
  unfold JsString.trim. apply trimEnd_idempotent.
Qed.

Lemma split_comma_join s :
  JsString.append_parts (JsString.split_comma s).1 (JsString.split_comma s).2
  = s.
Proof.
  unfold JsString.append_parts.
  induction s as [|c s IH]; [reflexivity|]. cbn.
  destruct (JsString.split_comma s) as [p ps]. cbn in *.
  destruct (JsString.is_comma c) eqn:Hc; cbn.
  - unfold JsString.is_comma in Hc. apply N.eqb_eq in Hc.
    assert (c = JsString.comma) as ->.
    { rewrite <- (ascii_N_embedding c), Hc. reflexivity. }
    rewrite IH. reflexivity.
  - rewrite IH. reflexivity.
Qed.

(* ===================================================================== *)
(** * trimLocale *)
(* ===================================================================== *)

(** What the loop keeps: the first part and the first [k] of the others,
    where the part after them (if any) did not fit. *)
Lemma extend_takes str parts :
  exists k,
    (k <= length parts)%nat /\
    Locale.extend str parts = JsString.append_parts str (take k parts) /\
    (forall p, parts !! k = Some p ->
       (255 <= length (Locale.extend str parts) + length p)%nat).
Proof.
  revert str. induction parts as [|p parts IH]; intros str.
  - exists 0%nat. unfold JsString.append_parts. cbn.
    rewrite app_nil_r. repeat split; [lia | discriminate].
  - cbn [Locale.extend].
    destruct (length str + length p <? 255)%nat eqn:Hfit.
    + destruct (IH (str ++ JsString.comma :: p)) as (k & Hk & Heq & Hmax).
      exists (S k). split; [cbn; lia|]. split.
      * rewrite Heq. unfold JsString.append_parts. cbn.
        rewrite <- !app_assoc. reflexivity.
      * intros q Hq. cbn in Hq. exact (Hmax q Hq).
    + exists 0%nat. split; [cbn; lia|]. split.
      * unfold JsString.append_parts. cbn. rewrite app_nil_r. reflexivity.
      * intros q Hq. cbn in Hq. injection Hq as <-.
        apply Nat.ltb_ge in Hfit. exact Hfit.
Qed.

Lemma length_extend str parts :
  (length str <= 255)%nat -> (length (Locale.extend str parts) <= 255)%nat.
Proof.
  revert str.
  induction parts as [|p parts IH]; intros str Hstr; cbn [Locale.extend];
    [lia|].
  destruct (length str + length p <? 255)%nat eqn:Hfit; [|lia].
  apply IH. apply Nat.ltb_lt in Hfit.
  rewrite length_app. cbn. lia.
Qed.

(** X1. Whatever the header, the text [trimLocale] returns has at most
    255 characters. *)
Theorem trimLocale_is_bounded header r :
  Locale.trimLocale header = Locale.text r -> (length r <= 255)%nat.
Proof.
  destruct header as [| |[|c s]]; cbn [Locale.trimLocale]; try discriminate.
  { intros H. injection H as <-. cbn. lia. }
  destruct (length (c :: s) <? 256)%nat eqn:Hshort.
  - intros H. injection H as <-. apply Nat.ltb_lt in Hshort.
    pose proof (length_trim (c :: s)). lia.
  - destruct (JsString.split_comma (c :: s)) as [str parts].
    destruct (255 <=? length str)%nat eqn:Hfirst; [discriminate|].
    intros H. injection H as <-. apply Nat.leb_gt in Hfirst.
    pose proof (length_trim (Locale.extend str parts)).
    pose proof (length_extend str parts). lia.
Qed.

Lemma trimLocale_is_bounded_witness :
  exists r,
    Locale.trimLocale (Locale.text SampleHeaders.long) = Locale.text r /\
    (length SampleHeaders.long = 480)%nat /\
    (length r <= 255)%nat.
Proof.
  eexists. split; [vm_compute; reflexivity|]. split; [reflexivity|].
  apply (trimLocale_is_bounded (Locale.text SampleHeaders.long)).
  vm_compute. reflexivity.
Defined.

(** X2. [trimLocale] is idempotent. *)
Theorem trimLocale_idempotent header :
  Locale.trimLocale (Locale.trimLocale header) = Locale.trimLocale header.
Proof.
  destruct (Locale.trimLocale header) as [| |r] eqn:E; try reflexivity.
  assert (Hr : JsString.trim r = r /\ (length r <= 255)%nat).
  { destruct header as [| |[|c s]]; cbn [Locale.trimLocale] in E;
      try discriminate.
    { injection E as <-. split; [reflexivity | cbn; lia]. }
    destruct (length (c :: s) <? 256)%nat eqn:Hshort.
    { injection E as <-. apply Nat.ltb_lt in Hshort.
      pose proof (length_trim (c :: s)).
      split; [apply trim_idempotent | lia]. }
    destruct (JsString.split_comma (c :: s)) as [str parts].
    destruct (255 <=? length str)%nat eqn:Hfirst; [discriminate|].
    injection E as <-. apply Nat.leb_gt in Hfirst.
    pose proof (length_trim (Locale.extend str parts)).
    pose proof (length_extend str parts).
    split; [apply trim_idempotent | lia]. }
  destruct Hr as [Htrim Hlen].
  destruct r as [|c r]; [reflexivity|].
  cbn [Locale.trimLocale].
  assert (Hs : (length (c :: r) <? 256)%nat = true)
    by (apply Nat.ltb_lt; lia).
  rewrite Hs, Htrim. reflexivity.
Qed.

(** X3. A header of 256 characters or more is cut at a comma: when its
    first entry has fewer than 255 characters, the result is the trimmed
    text of the first [k + 1] whole entries, a proper prefix of the
    header, and the entry after them is dropped because it did not fit
    in 255 characters. *)
Theorem trimLocale_keeps_whole_entries s :
  let str := (JsString.split_comma s).1 in
  let parts := (JsString.split_comma s).2 in
  (256 <= length s)%nat ->
  (length str < 255)%nat ->
  exists k kept dropped,
    (k < length parts)%nat /\
    kept = JsString.append_parts str (take k parts) /\
    Locale.trimLocale (Locale.text s) = Locale.text (JsString.trim kept) /\
    s = kept ++ dropped /\
    (length kept <= 255)%nat /\
    (forall p, parts !! k = Some p -> (255 <= length kept + length p)%nat) /\
    dropped = concat (map (cons JsString.comma) (drop k parts)).
Proof.
  intros str parts Hlong Hfirst.
  pose proof (split_comma_join s) as Hjoin. fold str parts in Hjoin.
  destruct (extend_takes str parts) as (k & Hk & Heq & Hmax).
  pose proof (length_extend str parts ltac:(lia)) as Hlen.
  assert (Hsplit : s = JsString.append_parts str (take k parts)
                       ++ concat (map (cons JsString.comma) (drop k parts))).
  { rewrite <- Hjoin at 1. unfold JsString.append_parts.
    rewrite <- (take_drop k parts) at 1.
    rewrite map_app, concat_app, app_assoc. reflexivity. }
  exists k, (JsString.append_parts str (take k parts)),
    (concat (map (cons JsString.comma) (drop k parts))).
  rewrite <- Heq in *.
  assert (Hk' : (k < length parts)%nat).
  { destruct (decide (k < length parts)%nat) as [|Hge]; [assumption|].
    assert (drop k parts = []) as Hd by (apply drop_ge; lia).
    rewrite Hd in Hsplit. cbn in Hsplit. rewrite app_nil_r in Hsplit.
    rewrite Hsplit in Hlong. lia. }
  repeat split; try assumption; try reflexivity.
  subst str parts.
  destruct s as [|c s]; [cbn in Hlong; lia|].
  cbn [Locale.trimLocale].
  assert (Hs : (length (c :: s) <? 256)%nat = false)
    by (apply Nat.ltb_ge; lia).
  rewrite Hs.
  destruct (JsString.split_comma (c :: s)) as [str parts].
  cbn [fst snd] in *.
  assert (Hf : (255 <=? length str)%nat = false)
    by (apply Nat.leb_gt; lia).
  rewrite Hf. reflexivity.
Qed.

Lemma trimLocale_keeps_whole_entries_witness :
  exists kept dropped,
    Locale.trimLocale (Locale.text SampleHeaders.long)
    = Locale.text (JsString.trim kept) /\
    SampleHeaders.long = kept ++ dropped /\
    (length kept <= 255)%nat.
Proof.
  assert (Hlong : (256 <= length SampleHeaders.long)%nat)
    by (apply Nat.leb_le; vm_compute; reflexivity).
  assert (Hfirst : (length (JsString.split_comma SampleHeaders.long).1 < 255)%nat)
    by (apply Nat.ltb_lt; vm_compute; reflexivity).
  destruct (trimLocale_keeps_whole_entries SampleHeaders.long Hlong Hfirst)
    as (k & kept & dropped & _ & _ & Hres & Hsplit & Hlen & _).
  exists kept, dropped. split; [exact Hres|]. split; [exact Hsplit | exact Hlen].
Defined.


(* ===================================================================== *)
(** * defineLazyGetter *)
(* ===================================================================== *)

Lemma reads_cached {V G} (truthy : V -> bool) (getter : G -> V * G) v g n :
  truthy v = true ->
  LazyGetter.reads truthy getter n (Some v) g = (repeat v n, Some v, g).
Proof.
  intros Hv. induction n as [|n IH]; [reflexivity|].
  cbn [LazyGetter.reads LazyGetter.get repeat]. rewrite Hv, IH. reflexivity.
Qed.

(** X4. A lazy property whose getter yields a truthy value runs the
    getter once: every read, however many, returns that value and the
    getter's own state is the state after its single run.  A getter that
    only yields falsy values is not cached at all: [n] reads run it [n]
    times. *)
Theorem lazy_getter_caches_truthy_values_only
    {V G} (truthy : V -> bool) (getter : G -> V * G) g n :
  (forall v g', getter g = (v, g') -> truthy v = true ->
     LazyGetter.reads truthy getter (S n) None g = (repeat v (S n), Some v, g'))
  /\
  ((forall g0, truthy (getter g0).1 = false) ->
     (LazyGetter.reads truthy getter n None g).1.1 = (getter_runs getter n g).1
     /\ (LazyGetter.reads truthy getter n None g).2 = (getter_runs getter n g).2).
Proof.
  split.
  - intros v g' Hg Hv.
    cbn [LazyGetter.reads LazyGetter.get repeat]. rewrite Hg.
    rewrite (reads_cached truthy getter v g' n Hv). reflexivity.
  - intros Hfalsy.
    assert (Hany : forall value g,
      match value with Some v => truthy v = false | None => True end ->
      (LazyGetter.reads truthy getter n value g).1.1
      = (getter_runs getter n g).1 /\
      (LazyGetter.reads truthy getter n value g).2
      = (getter_runs getter n g).2).
    { induction n as [|n IH]; intros value g0 Hval; [split; reflexivity|].
      cbn [LazyGetter.reads getter_runs].
      assert (Hget : LazyGetter.get truthy getter value g0
                     = ((getter g0).1, Some (getter g0).1, (getter g0).2)).
      { unfold LazyGetter.get. destruct value as [v|];
          [rewrite Hval|]; destruct (getter g0); reflexivity. }
      rewrite Hget.
      specialize (IH (Some (getter g0).1) (getter g0).2 (Hfalsy g0)).
      destruct (getter g0) as [v1 g1]. cbn [fst snd] in *.
      destruct (LazyGetter.reads truthy getter n (Some v1) g1) as [[vs val] g2].
      destruct (getter_runs getter n g1) as [ws g3].
      cbn [fst snd] in *. destruct IH as [-> ->]. split; reflexivity. }
    apply Hany. exact I.
Qed.

Lemma lazy_getter_caches_truthy_values_only_witness :
  LazyGetter.reads SampleHeaders.truthy (SampleHeaders.getter "en") 3 None 0%nat
  = (["en"; "en"; "en"], Some "en", 1%nat) /\
  (LazyGetter.reads SampleHeaders.truthy (SampleHeaders.getter "") 3 None 0%nat).2
  = 3%nat.
Proof.
  split.
  - exact (proj1 (lazy_getter_caches_truthy_values_only SampleHeaders.truthy
                    (SampleHeaders.getter "en") 0%nat 2)
                 "en" 1%nat eq_refl eq_refl).
  - exact (proj2 (proj2 (lazy_getter_caches_truthy_values_only
                           SampleHeaders.truthy (SampleHeaders.getter "")
                           0%nat 3)
                        (fun _ => eq_refl))).
Defined.

(* ===================================================================== *)
(** * remoteAddressChain and clientAddress *)
(* ===================================================================== *)

Lemma remoteAddressChain_app xff remoteAddress :
  RequestApp.remoteAddressChain xff remoteAddress
  = filter (fun address => address <> [])
           (map JsString.trim (JsString.split_sep (default [] xff)))
    ++ (if decide (JsString.trim remoteAddress <> [])
        then [JsString.trim remoteAddress] else []).
Proof.
  unfold RequestApp.remoteAddressChain.
  rewrite map_app, filter_app. cbn [map].
  rewrite filter_cons, filter_nil.
  destruct (decide (JsString.trim remoteAddress <> [])); reflexivity.
Qed.

(** X5. Every address of the chain is non-empty and carries no white
    space at either end. *)
Theorem remoteAddressChain_entries_are_trimmed xff remoteAddress address :
  address ∈ RequestApp.remoteAddressChain xff remoteAddress ->
  address <> [] /\ JsString.trim address = address.
Proof.
  unfold RequestApp.remoteAddressChain.
  intros Hin. apply list_elem_of_filter in Hin as [Hne Hin].
  apply list_elem_of_fmap in Hin as (raw & -> & _).
  split; [exact Hne | apply trim_idempotent].
Qed.

Lemma remoteAddressChain_entries_are_trimmed_witness :
  RequestApp.remoteAddressChain (Some SampleHeaders.forwarded)
                                SampleHeaders.peer
  = SampleHeaders.chain /\
  JsString.trim (SampleHeaders.of_string "1.2.3.4")
  = SampleHeaders.of_string "1.2.3.4".
Proof.
  split; [vm_compute; reflexivity|].
  refine (proj2 (remoteAddressChain_entries_are_trimmed
                   (Some SampleHeaders.forwarded) SampleHeaders.peer
                   (SampleHeaders.of_string "1.2.3.4") _)).
  apply list_elem_of_In. vm_compute. left. reflexivity.
Defined.

(** X6. When the connection's remote address is not blank it is the last
    address of the chain, and with the default depth (none configured,
    0 or 1) it is the client address, whatever the X-Forwarded-For header
    holds; without that header the chain is the remote address alone. *)
Theorem clientAddress_defaults_to_remoteAddress xff remoteAddress :
  let chain := RequestApp.remoteAddressChain xff remoteAddress in
  JsString.trim remoteAddress <> [] ->
  last chain = Some (JsString.trim remoteAddress) /\
  RequestApp.clientAddress None chain = Some (JsString.trim remoteAddress) /\
  RequestApp.clientAddress (Some 0) chain = Some (JsString.trim remoteAddress) /\
  RequestApp.clientAddress (Some 1) chain = Some (JsString.trim remoteAddress) /\
  (xff = None \/ xff = Some [] -> chain = [JsString.trim remoteAddress]).
Proof.
  intros chain Hne. subst chain.
  rewrite remoteAddressChain_app.
  destruct (decide (JsString.trim remoteAddress <> [])) as [_|Hno];
    [|contradiction].
  set (front := filter _ _).
  assert (Hidx : forall d, d = 1 ->
    (front ++ [JsString.trim remoteAddress])
      !! Z.to_nat (if Z.of_nat (length (front ++ [JsString.trim remoteAddress])) - d <? 0
                   then 0
                   else Z.of_nat (length (front ++ [JsString.trim remoteAddress])) - d)
    = Some (JsString.trim remoteAddress)).
  { intros d ->. rewrite length_app. cbn [length].
    destruct (Z.of_nat (length front + 1) - 1 <? 0) eqn:Hneg;
      [apply Z.ltb_lt in Hneg; lia|].
    replace (Z.to_nat (Z.of_nat (length front + 1) - 1)) with (length front)
      by lia.
    rewrite lookup_app_r by lia. rewrite Nat.sub_diag. reflexivity. }
  split; [apply last_snoc|].
  unfold RequestApp.clientAddress. cbn [Z.eqb].
  repeat split; try (apply Hidx; reflexivity).
  intros [->| ->]; reflexivity.
Qed.

Lemma clientAddress_defaults_to_remoteAddress_witness :
  RequestApp.clientAddress None
    (RequestApp.remoteAddressChain (Some SampleHeaders.forwarded)
                                   SampleHeaders.peer)
  = Some (JsString.trim SampleHeaders.peer).
Proof.
  refine (proj1 (proj2 (clientAddress_defaults_to_remoteAddress
                          (Some SampleHeaders.forwarded) SampleHeaders.peer _))).
  vm_compute. discriminate.
Defined.

(** X7. With a depth [d >= 1] the client address is the [d]-th address
    from the end of the chain, and the first one when the chain has
    fewer than [d]; it is defined whenever the chain is not empty.  A
    negative depth reads past the end of the chain: there is no client
    address. *)
Theorem clientAddress_counts_from_the_end d (chain : list (list Ascii.ascii)) :
  (1 <= d ->
     RequestApp.clientAddress (Some d) chain
     = chain !! (length chain - Z.to_nat d)%nat /\
     (Z.of_nat (length chain) <= d ->
        RequestApp.clientAddress (Some d) chain = head chain) /\
     (chain <> [] -> is_Some (RequestApp.clientAddress (Some d) chain))) /\
  (d < 0 -> RequestApp.clientAddress (Some d) chain = None).
Proof.
  unfold RequestApp.clientAddress. split.
  - intros Hd. destruct (d =? 0) eqn:H0; [apply Z.eqb_eq in H0; lia|].
    assert (Hidx : Z.to_nat (if Z.of_nat (length chain) - d <? 0 then 0
                            else Z.of_nat (length chain) - d)
                   = (length chain - Z.to_nat d)%nat).
    { destruct (Z.of_nat (length chain) - d <? 0) eqn:Hneg;
        [apply Z.ltb_lt in Hneg | apply Z.ltb_ge in Hneg]; lia. }
    rewrite Hidx. split; [reflexivity|]. split.
    + intros Hle. replace (length chain - Z.to_nat d)%nat with 0%nat by lia.
      destruct chain; reflexivity.
    + intros Hne. apply lookup_lt_is_Some.
      destruct chain; [contradiction | cbn; lia].
  - intros Hd. destruct (d =? 0) eqn:H0; [apply Z.eqb_eq in H0; lia|].
    destruct (Z.of_nat (length chain) - d <? 0) eqn:Hneg;
      [apply Z.ltb_lt in Hneg; lia|].
    apply lookup_ge_None. lia.
Qed.

Lemma clientAddress_counts_from_the_end_witness :
  RequestApp.clientAddress (Some 2) SampleHeaders.chain
  = Some (SampleHeaders.of_string "5.6.7.8") /\
  RequestApp.clientAddress (Some 7) SampleHeaders.chain
  = Some (SampleHeaders.of_string "1.2.3.4") /\
  RequestApp.clientAddress (Some (-1)) SampleHeaders.chain = None.
Proof.
  split; [|split].
  - rewrite (proj1 (proj1 (clientAddress_counts_from_the_end
                             2 SampleHeaders.chain) ltac:(lia))).
    reflexivity.
  - rewrite (proj1 (proj2 (proj1 (clientAddress_counts_from_the_end
                                    7 SampleHeaders.chain) ltac:(lia)))
                   ltac:(cbn; lia)).
    reflexivity.
  - exact (proj2 (clientAddress_counts_from_the_end (-1) SampleHeaders.chain)
                 ltac:(lia)).
Defined.

Lemma is_comma_spec c : JsString.is_comma c = true <-> c = JsString.comma.
Proof.
  unfold JsString.is_comma. split.
  - intros H. apply N.eqb_eq in H.
    rewrite <- (ascii_N_embedding c), H. reflexivity.
  - intros ->. reflexivity.
Qed.

Lemma split_sep_from_no_comma s :
  forall after cur pending part,
    JsString.comma ∉ cur -> JsString.comma ∉ pending ->
    part ∈ JsString.split_sep_from after cur pending s ->
    JsString.comma ∉ part.
Proof.
  induction s as [|c s IH]; intros after cur pending part Hcur Hpen Hin.
  - cbn in Hin. apply list_elem_of_singleton in Hin as ->.
    rewrite elem_of_app. tauto.
  - cbn [JsString.split_sep_from] in Hin.
    destruct (JsString.is_comma c) eqn:Hc.
    + apply elem_of_cons in Hin as [->|Hin]; [exact Hcur|].
      apply (IH true [] [] part); [apply not_elem_of_nil ..| exact Hin].
    + assert (Hne : c <> JsString.comma).
      { intros ->. rewrite (proj2 (is_comma_spec _) eq_refl) in Hc.
        discriminate. }
      destruct (JsString.is_white_space c).
      * destruct after.
        -- apply (IH true [] [] part); [apply not_elem_of_nil ..| exact Hin].
        -- apply (IH false cur (pending ++ [c]) part); [exact Hcur | | exact Hin].
           rewrite elem_of_app, list_elem_of_singleton. intros [?|?]; congruence.
      * apply (IH false (cur ++ pending ++ [c]) [] part);
          [| apply not_elem_of_nil | exact Hin].
        rewrite !elem_of_app, list_elem_of_singleton.
        intros [?|[?|?]]; congruence.
Qed.

Lemma trimStart_subseteq s c : c ∈ JsString.trimStart s -> c ∈ s.
Proof.
  induction s as [|d s IH]; cbn; [exact id|].
  destruct (JsString.is_white_space d); [|exact id].
  intros H. right. exact (IH H).
Qed.

Lemma trimEnd_subseteq s c : c ∈ JsString.trimEnd s -> c ∈ s.
Proof.
  revert c. induction s as [|d s IH]; intros c; cbn; [exact id|].
  destruct (JsString.trimEnd s) as [|e r].
  - destruct (JsString.is_white_space d); intros H.
    + apply not_elem_of_nil in H. destruct H.
    + apply list_elem_of_singleton in H as ->. left.
  - intros H. apply elem_of_cons in H as [->|H]; [left|].
    right. apply IH. exact H.
Qed.

(** X8. Every address the chain takes from the X-Forwarded-For header
    is a single entry of it: apart from the connection's own remote
    address, no address of the chain contains a comma. *)
Theorem forwarded_addresses_have_no_comma xff remoteAddress address :
  address ∈ RequestApp.remoteAddressChain xff remoteAddress ->
  address = JsString.trim remoteAddress \/ JsString.comma ∉ address.
Proof.
  unfold RequestApp.remoteAddressChain. intros Hin.
  apply list_elem_of_filter in Hin as [_ Hin].
  apply list_elem_of_fmap in Hin as (raw & -> & Hraw).
  apply elem_of_app in Hraw as [Hraw|Hraw].
  - right. intros Hc.
    apply trimEnd_subseteq, trimStart_subseteq in Hc.
    revert Hc.
    apply (split_sep_from_no_comma (default [] xff) false [] [] raw);
      [apply not_elem_of_nil ..| exact Hraw].
  - left. apply list_elem_of_singleton in Hraw as ->. reflexivity.
Qed.

Lemma forwarded_addresses_have_no_comma_witness :
  JsString.comma ∉ SampleHeaders.of_string "5.6.7.8".
Proof.
  destruct (forwarded_addresses_have_no_comma
              (Some SampleHeaders.forwarded) SampleHeaders.peer
              (SampleHeaders.of_string "5.6.7.8")) as [H|H].
  - apply list_elem_of_In. vm_compute. right. left. reflexivity.
  - vm_compute in H. discriminate.
  - exact H.
Defined.

(* ===================================================================== *)
(** * The TOTP routes and the rows of other users *)
(* ===================================================================== *)

(** X9. No TOTP route reads or writes the TOTP row of another user:
    whatever the route, the collaborators and the outcome, every row
    other than the caller's is after the request what it was before, and
    no call to the TOTP table names another user. *)
Theorem totp_routes_leave_other_rows env op request s other :
  other <> Token.uid (credentials request) ->
  totp (store_of (run env op request s)) !! other = totp s !! other /\
  forall e, In e (events_of (run env op request s)) ->
            totp_row_of e <> Some other.
Proof.
  intros Hother. split.
  - destruct op; unchain_all;
      rewrite ?lookup_insert_ne, ?lookup_delete_ne by congruence;
      reflexivity.
  - intros e.
    destruct op; unchain_all; intros Hin;
      repeat match goal with
        | H : _ \/ _ |- _ => destruct H
        | H : False |- _ => destruct H
        end; subst; cbn; congruence.
Qed.

Lemma totp_routes_leave_other_rows_witness :
  totp (store_of (run Sample.env Destroy (Sample.request None "")
                    (Sample.with_totp true true))) !! "u2"
  = totp (Sample.with_totp true true) !! "u2".
Proof.
  refine (proj1 (totp_routes_leave_other_rows Sample.env Destroy
                   (Sample.request None "") (Sample.with_totp true true)
                   "u2" _)).
  vm_compute. discriminate.
Defined.



(** X11. Exists and VerifyCode never remove or change a TotpToken that
    is verified: whatever the code, the collaborators and the outcome,
    the TOTP table is after the request what it was before. *)
Theorem verified_totp_token_is_stable env op request s tok :
  op = Exists \/ op = VerifyCode ->
  totp s !! Token.uid (credentials request) = Some tok ->
  TotpToken.verified tok = true ->
  totp (store_of (run env op request s)) = totp s.
Proof.
  intros [-> | ->] Htok Hver; unchain_all;
    rewrite ?Htok in *; cbn in *;
    repeat match goal with
      | H : Some _ = Some _ |- _ => injection H as <-
      | H : Resolved _ = Resolved _ |- _ => injection H as <-
      | H : (_, _) = (_, _) |- _ => injection H as <- <-
      end;
    try congruence; try reflexivity;
    repeat match goal with
      | H : context [TotpToken.verified _] |- _ =>
          rewrite Hver in H; cbn in H; rewrite ?andb_false_r in H
      end;
    discriminate.
Qed.

Lemma verified_totp_token_is_stable_witness :
  totp (store_of (run Sample.env VerifyCode (Sample.request None "123456")
                    (Sample.with_totp true true)))
  = totp (Sample.with_totp true true).
Proof.
  refine (verified_totp_token_is_stable Sample.env VerifyCode
            (Sample.request None "123456") (Sample.with_totp true true)
            (TotpToken.mk "u1" "3132" true true 0)
            (or_intror eq_refl) _ eq_refl).
  vm_compute. reflexivity.
Defined.

(* ===================================================================== *)
(** * POST /totp/create: the reply and the row *)
(* ===================================================================== *)

(** X12. When Create replies with a body, the secret in the body is the
    secret that was persisted for the caller (in a row that is neither
    verified nor enabled), the QR code is the rendering of the otpauth
    URI built from the caller's email, the service name and that same
    secret, and the "created" telemetry has been emitted after the
    store call. *)
Theorem create_replies_the_persisted_secret env request s body :
  let sessionToken := credentials request in
  let secret := authenticator_generateSecret env in
  let o := TotpCreate.handler env request s in
  completion o = Replied (Resolved body) ->
  exists qrCodeUrl,
    body = body_create qrCodeUrl secret /\
    qrcode_toDataURL env
      (authenticator_keyuri env (Token.email sessionToken)
                            (config_serviceName env) secret)
    = Resolved qrCodeUrl /\
    totp (store_of o) !! Token.uid sessionToken
    = Some (TotpToken.mk (Token.uid sessionToken) secret false false 0) /\
    events_of o
    = [log_begin "totp.create"; customs_check_called "totpCreate";
       db (call_createTotpToken (Token.uid sessionToken) secret 0);
       log_info "totpToken.created" (Token.uid sessionToken);
       emitMetricsEvent "totpToken.created" (Token.uid sessionToken)].
Proof.
  intros sessionToken secret o. subst sessionToken secret o.
  unchain_all; intros H; try discriminate;
    injection H as <-; eexists; repeat split; apply lookup_insert_eq.
Qed.

Lemma create_replies_the_persisted_secret_witness :
  totp (store_of (TotpCreate.handler Sample.env (Sample.request None "")
                    Sample.empty)) !! "u1"
  = Some (TotpToken.mk "u1" "3132333435363738393031323334353637383930"
                       false false 0).
Proof.
  destruct (create_replies_the_persisted_secret Sample.env
              (Sample.request None "") Sample.empty
              (body_create
                 "data:image/png;base64,otpauth://totp/Firefox:user@example.com?secret=3132333435363738393031323334353637383930"
                 "3132333435363738393031323334353637383930"))
    as (qr & _ & _ & Hrow & _).
  - vm_compute. reflexivity.
  - exact Hrow.
Defined.

(** X13. Create does not undo the store call when a later step fails.
    For a caller with a verified session and no TOTP row yet, once the
    store has persisted the new row: when the metrics emission rejects,
    the caller gets that failure; when it resolves and the QR code cannot
    be rendered, the caller gets the rendering failure.  In both cases the
    new row stays persisted and the "created" log entry and metrics call
    have been made. *)
Theorem create_keeps_row_when_later_step_fails env request s :
  let sessionToken := credentials request in
  let uid := Token.uid sessionToken in
  let secret := authenticator_generateSecret env in
  let otpauth :=
    authenticator_keyuri env (Token.email sessionToken)
                         (config_serviceName env) secret in
  let o := TotpCreate.handler env request s in
  let persisted_and_reported :=
    totp (store_of o) !! uid = Some (TotpToken.mk uid secret false false 0) /\
    telemetry_of (events_of o)
    = [log_info "totpToken.created" uid;
       emitMetricsEvent "totpToken.created" uid] in
  Token.tokenVerificationId sessionToken = None ->
  customs_check env request "totpCreate" = None ->
  db_outage env (call_createTotpToken uid secret 0) = None ->
  totp s !! uid = None ->
  (forall err,
     metrics_emit env request "totpToken.created" = Some err ->
     completion o = Replied (Rejected err) /\ persisted_and_reported) /\
  (forall err,
     metrics_emit env request "totpToken.created" = None ->
     qrcode_toDataURL env otpauth = Rejected err ->
     completion o = Replied (Rejected err) /\ persisted_and_reported).
Proof.
  intros sessionToken uid secret otpauth o persisted_and_reported
         Hsess Hc Hout Habs.
  subst sessionToken uid secret otpauth persisted_and_reported o.
  unfold telemetry_of. split.
  - intros err Hm. unchain. rewrite Hsess, Hc. cbn.
    rewrite Hout, Habs. cbn. rewrite Hm. cbn.
    repeat split. apply lookup_insert_eq.
  - intros err Hm Hqr. unchain. rewrite Hsess, Hc. cbn.
    rewrite Hout, Habs. cbn. rewrite Hm. cbn. rewrite Hqr. cbn.
    repeat split. apply lookup_insert_eq.
Qed.

Lemma create_keeps_row_when_later_step_fails_witness :
  let row :=
    TotpToken.mk "u1" "3132333435363738393031323334353637383930"
                 false false 0 in
  let no_qr := TotpCreate.handler SampleFailures.env_no_qr
                 (Sample.request None "") Sample.empty in
  let no_metrics := TotpCreate.handler SampleFailures.env_no_metrics
                      (Sample.request None "") Sample.empty in
  (completion no_qr = Replied (Rejected SampleFailures.unavailable) /\
   totp (store_of no_qr) !! "u1" = Some row) /\
  (completion no_metrics = Replied (Rejected SampleFailures.unavailable) /\
   totp (store_of no_metrics) !! "u1" = Some row).
Proof.
  cbv zeta. split.
  - destruct (proj2 (create_keeps_row_when_later_step_fails
                       SampleFailures.env_no_qr (Sample.request None "")
                       Sample.empty eq_refl eq_refl eq_refl eq_refl)
                    SampleFailures.unavailable eq_refl eq_refl)
      as (Hreply & Hrow & _).
    split; [exact Hreply | exact Hrow].
  - destruct (proj1 (create_keeps_row_when_later_step_fails
                       SampleFailures.env_no_metrics (Sample.request None "")
                       Sample.empty eq_refl eq_refl eq_refl eq_refl)
                    SampleFailures.unavailable eq_refl)
      as (Hreply & Hrow & _).
    split; [exact Hreply | exact Hrow].
Defined.

(* ===================================================================== *)
(** * POST /session/verify/totp: missing token, telemetry *)
(* ===================================================================== *)

(** X14. For a user without TotpToken, VerifyCode replies the store's
    not-found failure -- whatever the code and whether or not the session
    awaits verification: after the customs check and the lookup nothing
    else happens (no code check result, no update, no session
    verification, no telemetry) and the store is left as it is. *)
Theorem verify_code_without_totp_token env request s :
  customs_check env request "sessionVerifyTotp" = None ->
  db_outage env (call_totpToken (Token.uid (credentials request))) = None ->
  totp s !! Token.uid (credentials request) = None ->
  SessionVerifyTotp.handler env request s
  = (Replied (Rejected totpTokenNotFound), s,
     [log_begin "session.verify.totp";
      customs_check_called "sessionVerifyTotp";
      db (call_totpToken (Token.uid (credentials request)))]).
Proof.
  intros Hc Hout Habs. unchain. rewrite Hc. cbn. rewrite Hout, Habs.
  reflexivity.
Qed.

Lemma verify_code_without_totp_token_witness :
  completion (SessionVerifyTotp.handler Sample.env
                (Sample.request (Some "c3d4") "123456") Sample.empty)
  = Replied (Rejected totpTokenNotFound).
Proof.
  rewrite (verify_code_without_totp_token Sample.env
             (Sample.request (Some "c3d4") "123456") Sample.empty
             eq_refl eq_refl eq_refl).
  reflexivity.
Defined.

(** X15. VerifyCode emits telemetry exactly when it replies with a
    result, and the telemetry names the result: "verified" for
    [success = true], "unverified" for [success = false]; a request that
    ends in a failure emits none. *)
Theorem verify_code_telemetry_names_the_reply env request s :
  let uid := Token.uid (credentials request) in
  let o := SessionVerifyTotp.handler env request s in
  match completion o with
  | Replied (Resolved (body_success true)) =>
      telemetry_of (events_of o)
      = [log_info "totp.verified" uid;
         emitMetricsEvent "totpToken.verified" uid]
  | Replied (Resolved (body_success false)) =>
      telemetry_of (events_of o)
      = [log_info "totp.unverified" uid;
         emitMetricsEvent "totpToken.unverified" uid]
  | Replied (Resolved _) => False
  | _ => telemetry_of (events_of o) = []
  end.
Proof.
  intros uid o. subst uid o. unfold telemetry_of.
  unchain_all; reflexivity.
Qed.

(* ===================================================================== *)
(** * The life of a TotpToken *)
(* ===================================================================== *)

(** X16. Setting the factor up: after a Create that replied with a body
    and a VerifyCode with a code that checks valid against the generated
    secret, the caller's row is verified and enabled and still holds the
    generated secret, Exists replies [exists = true] and leaves the store
    as it is. *)
Theorem create_verify_exists env request s body :
  let uid := Token.uid (credentials request) in
  let secret := authenticator_generateSecret env in
  let s1 := store_of (TotpCreate.handler env request s) in
  let s2 := store_of (SessionVerifyTotp.handler env request s1) in
  completion (TotpCreate.handler env request s) = Replied (Resolved body) ->
  customs_check env request "sessionVerifyTotp" = None ->
  healthy env ->
  authenticator_check env (payload_code request) secret = true ->
  completion (SessionVerifyTotp.handler env request s1)
  = Replied (Resolved (body_success true)) /\
  totp s2 !! uid = Some (TotpToken.mk uid secret true true 0) /\
  completion (TotpExists.handler env request s2)
  = Replied (Resolved (body_exists true)) /\
  store_of (TotpExists.handler env request s2) = s2.
Proof.
  intros uid secret s1 s2 Hbody Hc Hh Hvalid.
  destruct (create_replied_body env request s body Hbody) as [Hsess Hs1].
  fold uid secret s1 in Hs1.
  assert (Hrow : totp s1 !! uid
                 = Some (TotpToken.mk uid secret false false 0))
    by (rewrite Hs1; apply lookup_insert_eq).
  pose proof (verify_run env request s1 _ Hc Hh Hrow) as Hrun.
  cbn [TotpToken.sharedSecret TotpToken.verified] in Hrun.
  fold secret in Hrun. rewrite Hvalid, Hsess in Hrun. cbn in Hrun.
  fold uid in Hrun.
  assert (Hs2 : totp s2 !! uid = Some (TotpToken.mk uid secret true true 0)).
  { subst s2. rewrite Hrun. cbn. apply lookup_insert_eq. }
  split; [rewrite Hrun; reflexivity|]. split; [exact Hs2|].
  rewrite (exists_verified env request s2 Hsess (Hh _) _ Hs2 eq_refl).
  split; reflexivity.
Qed.

Lemma create_verify_exists_witness :
  let request := Sample.request None "123456" in
  let s1 := store_of (TotpCreate.handler Sample.env request Sample.empty) in
  let s2 := store_of (SessionVerifyTotp.handler Sample.env request s1) in
  completion (TotpExists.handler Sample.env request s2)
  = Replied (Resolved (body_exists true)).
Proof.
  cbv zeta.
  refine (proj1 (proj2 (proj2
    (create_verify_exists Sample.env (Sample.request None "123456")
       Sample.empty
       (body_create
          "data:image/png;base64,otpauth://totp/Firefox:user@example.com?secret=3132333435363738393031323334353637383930"
          "3132333435363738393031323334353637383930")
       _ eq_refl (fun c => eq_refl) eq_refl)))).
  vm_compute. reflexivity.
Defined.

(** X17. How Exists treats failures of the store.  Any not-found signal
    from the lookup is answered [exists = false]; any other lookup
    failure is replied as it is, and no delete is attempted.  When the
    delete of an unverified row fails, that failure is replied and the
    row is still there. *)
Theorem exists_store_failures env request s :
  let uid := Token.uid (credentials request) in
  let o := TotpExists.handler env request s in
  Token.tokenVerificationId (credentials request) = None ->
  (forall err, db_outage env (call_totpToken uid) = Some err ->
     completion o
     = Replied (if is_TOTP_TOKEN_NOT_FOUND err
                then Resolved (body_exists false) else Rejected err) /\
     store_of o = s /\
     events_of o = [log_begin "totp.exists"; db (call_totpToken uid)]) /\
  (forall tok err,
     db_outage env (call_totpToken uid) = None ->
     totp s !! uid = Some tok ->
     TotpToken.verified tok = false ->
     db_outage env (call_deleteTotpToken uid) = Some err ->
     completion o = Replied (Rejected err) /\
     store_of o = s /\
     totp (store_of o) !! uid = Some tok).
Proof.
  intros uid o Hsess. subst uid o. split.
  - intros err Hout. unchain. rewrite Hsess. cbn. rewrite Hout. cbn.
    destruct (is_TOTP_TOKEN_NOT_FOUND err); cbn; repeat split.
  - intros tok err Hget Htok Hver Hdel.
    unchain. rewrite Hsess. cbn. rewrite Hget, Htok. cbn.
    rewrite Hver. cbn. rewrite Hdel. cbn. repeat split. exact Htok.
Qed.

Lemma exists_store_failures_witness :
  completion (TotpExists.handler SampleFailures.env_no_lookup
                (Sample.request None "") (Sample.with_totp true true))
  = Replied (Rejected SampleFailures.unavailable).
Proof.
  exact (proj1 (proj1 (exists_store_failures SampleFailures.env_no_lookup
                         (Sample.request None "") (Sample.with_totp true true)
                         eq_refl)
                      SampleFailures.unavailable eq_refl)).
Defined.

(** X18. After a Destroy that replied with the empty body the caller has
    no TotpToken: Exists answers [exists = false] after the lookup
    alone, and VerifyCode answers the not-found failure whatever the
    code. *)
Theorem destroy_leaves_no_totp_token env request s :
  let uid := Token.uid (credentials request) in
  let s1 := store_of (TotpDestroy.handler env request s) in
  completion (TotpDestroy.handler env request s)
  = Replied (Resolved body_empty) ->
  totp s1 !! uid = None /\
  (db_outage env (call_totpToken uid) = None ->
     completion (TotpExists.handler env request s1)
     = Replied (Resolved (body_exists false)) /\
     store_of (TotpExists.handler env request s1) = s1) /\
  (db_outage env (call_totpToken uid) = None ->
   customs_check env request "sessionVerifyTotp" = None ->
     completion (SessionVerifyTotp.handler env request s1)
     = Replied (Rejected totpTokenNotFound)).
Proof.
  intros uid s1 Hbody.
  assert (Hsess : Token.tokenVerificationId (credentials request) = None).
  { revert Hbody. unchain_all; intros; try discriminate; reflexivity. }
  assert (Hgone : totp s1 !! uid = None).
  { subst s1 uid. revert Hbody.
    unchain_all; intros; try discriminate;
      try assumption; apply lookup_delete_eq. }
  split; [exact Hgone|]. split.
  - intros Hget.
    rewrite (exists_absent env request s1 Hsess Hget Hgone).
    split; reflexivity.
  - intros Hget Hc.
    unchain. rewrite Hc. cbn. fold uid. rewrite Hget, Hgone. reflexivity.
Qed.

Lemma destroy_leaves_no_totp_token_witness :
  totp (store_of (TotpDestroy.handler Sample.env (Sample.request None "")
                    (Sample.with_totp true true))) !! "u1" = None.
Proof.
  refine (proj1 (destroy_leaves_no_totp_token Sample.env
                   (Sample.request None "") (Sample.with_totp true true) _)).
  vm_compute. reflexivity.
Defined.

(** X19. Every TOTP route keeps the invariant of the data model that an
    enabled TotpToken is a verified one. *)
Theorem totp_routes_keep_flags_consistent env op request s :
  flags_consistent s ->
  flags_consistent (store_of (run env op request s)).
Proof.
  intros Hinv uid tok.
  destruct (decide (uid = Token.uid (credentials request))) as [->|Hne].
  - destruct op; unchain_all;
      rewrite ?lookup_insert_eq, ?lookup_delete_eq;
      try (apply Hinv);
      intros H; try discriminate; injection H as <-; cbn; congruence.
  - destruct op; unchain_all;
      rewrite ?lookup_insert_ne, ?lookup_delete_ne by congruence;
      apply Hinv.
Qed.

Lemma totp_routes_keep_flags_consistent_witness :
  flags_consistent (Sample.with_totp false false) /\
  flags_consistent
    (store_of (run Sample.env VerifyCode (Sample.request None "123456")
                 (Sample.with_totp false false))).
Proof.
  assert (H : flags_consistent (Sample.with_totp false false)).
  { intros uid tok Hrow Henabled. unfold Sample.with_totp in Hrow.
    cbn [totp] in Hrow. apply lookup_singleton_Some in Hrow as [_ <-].
    discriminate. }
  split; [exact H|].
  exact (totp_routes_keep_flags_consistent Sample.env VerifyCode
           (Sample.request None "123456") (Sample.with_totp false false) H).
Defined.

(* ===================================================================== *)
(** * Credential resolution: what it writes *)
(* ===================================================================== *)

(** X20. Credential resolution hands a token that has not expired to the
    callback as the accessor returned it and makes no call of its own.
    In every case it leaves the TOTP table as the accessor left it, and
    the bearer tokens too, unless it pruned an expired session token. *)
Theorem resolution_writes_only_by_pruning env dbGetFn id s r s1 ev1 :
  let o := Server.makeCredentialFn env dbGetFn id s in
  HEX_STRING_test env id = true ->
  dbGetFn id s = (r, s1, ev1) ->
  (forall token, r = Resolved token ->
     Token.expired token (Date_now env) = false ->
     o = (Resolved (Server.cb_credentials token), s1,
          [log_trace_getToken id] ++ ev1)) /\
  totp (store_after o) = totp s1 /\
  (tokens (store_after o) = tokens s1 \/
   exists token,
     r = Resolved token /\
     Token.expired token (Date_now env) = true /\
     Token.tokenTypeID token = "sessionToken" /\
     tokens (store_after o) = delete (Token.id token) (tokens s1)).
Proof.
  intros o Hhex Hget. subst o. unchain. rewrite Hhex. cbn. rewrite Hget.
  destruct r as [token|err]; cbn.
  - destruct (Token.expired token (Date_now env)) eqn:Hexp; cbn.
    + split; [intros t [= <-]; congruence|].
      destruct (bool_decide (Token.tokenTypeID token = "sessionToken")) eqn:Hk;
        cbn.
      * apply bool_decide_eq_true in Hk.
        destruct (db_outage env _); cbn; (split; [reflexivity|]);
          [left; reflexivity | right; eauto 10].
      * split; [reflexivity | left; reflexivity].
    + split; [|split; [reflexivity | left; reflexivity]].
      intros t [= <-] _. rewrite app_nil_r. reflexivity.
  - split; [intros t; discriminate|].
    split; [reflexivity | left; reflexivity].
Qed.

Lemma resolution_writes_only_by_pruning_witness :
  Server.getCredentialsFunc Sample.env "sessionToken" "a1b2"
    (Sample.with_totp true true)
  = (Resolved (Server.cb_credentials (Sample.session None)),
     Sample.with_totp true true,
     [log_trace_getToken "a1b2"; db (call_getToken "sessionToken" "a1b2")]).
Proof.
  refine (proj1 (resolution_writes_only_by_pruning Sample.env
                   (Db.getToken Sample.env "sessionToken") "a1b2"
                   (Sample.with_totp true true)
                   (Resolved (Sample.session None))
                   (Sample.with_totp true true)
                   [db (call_getToken "sessionToken" "a1b2")] eq_refl _)
                (Sample.session None) eq_refl eq_refl).
  vm_compute. reflexivity.
Defined.

(* ===================================================================== *)
(** * getOAuthToken *)
(* ===================================================================== *)

(** X21. [getOAuthToken] resolves exactly when the signer, the local key
    and the authorization endpoint all resolve, to the endpoint's answer
    for the bundle, the fixed client id, [response_type = token] and the
    requested scope; otherwise it rejects with the failure of the first
    of the three that failed, and the later ones play no part. *)
Theorem getOAuthToken_outcome env sessionToken scope :
  let request := OAuthMint.certRequest env sessionToken in
  let claims := OAuthMint.assertionClaims env in
  let post bundle :=
    OAuthMint.pool_post env "/v1/authorization"
      (OAuthMint.mkAuthorizationRequest bundle "5882386c6d801776" "token"
                                        scope) in
  (forall answer,
     OAuthMint.getOAuthToken env sessionToken scope = Resolved answer <->
     exists cert assertion,
       OAuthMint.signer_sign env request = Resolved cert /\
       OAuthMint.secretKey_sign env claims = Resolved assertion /\
       post (String.append cert (String.append "~" assertion))
       = Resolved answer) /\
  (forall err,
     OAuthMint.getOAuthToken env sessionToken scope = Rejected err <->
     OAuthMint.signer_sign env request = Rejected err \/
     (exists cert,
        OAuthMint.signer_sign env request = Resolved cert /\
        OAuthMint.secretKey_sign env claims = Rejected err) \/
     (exists cert assertion,
        OAuthMint.signer_sign env request = Resolved cert /\
        OAuthMint.secretKey_sign env claims = Resolved assertion /\
        post (String.append cert (String.append "~" assertion))
        = Rejected err)).
Proof.
  intros request claims post. subst post.
  unfold OAuthMint.getOAuthToken, OAuthMint.generateOAuthAssertion.
  fold request claims. unfold OAuthMint.CLIENT_ID.
  destruct (OAuthMint.signer_sign env request) as [cert|e1];
    [destruct (OAuthMint.secretKey_sign env claims) as [assertion|e2]|];
    split; intros x; split; intros H;
    repeat match goal with
      | H : exists _, _ |- _ => destruct H
      | H : _ /\ _ |- _ => destruct H
      | H : _ \/ _ |- _ => destruct H
      | H : Resolved _ = Resolved _ |- _ => injection H as <-
      | H : Rejected _ = Rejected _ |- _ => injection H as <-
      end;
    try discriminate; try assumption; try reflexivity; eauto 10.
Qed.

Lemma getOAuthToken_outcome_witness :
  OAuthMint.getOAuthToken SampleMint.env (Sample.session None) "profile"
  = Resolved
      "cert-for-u1@accounts.example.com~assertion-for-https://oauth.example.com/v1".
Proof.
  apply (proj1 (getOAuthToken_outcome SampleMint.env (Sample.session None)
                  "profile")).
  exists "cert-for-u1@accounts.example.com",
         "assertion-for-https://oauth.example.com/v1".
  split; [reflexivity|]. split; reflexivity.
Defined.
